(** * The Sankey data preparation of the dashboard (app.py)

    A shallow embedding of [prepare_sankey_data] (app.py, lines 151-193) as
    the dashboard calls it, [prepare_sankey_data(grouped=True)] (line 195,
    and the default of the parameter), and of the sampling step of the
    violin plot (line 93).

    The function reads the module globals [worklife_df],
    [stress_level_order], [stress_level_labels] and [stress_color_mapping]
    and assigns columns of [worklife_df]: the data frame is threaded as a
    state, the other globals are parameters, and exceptions are values.

    The pandas operations the function calls ([pd.cut], [pd.Categorical],
    [groupby(...).size()], [.cat.codes], [DataFrame.sample]) are modelled
    after the library's documented behaviour, each next to the call that
    uses it.  The branch [grouped=False] is not part of this development. *)

From Stdlib Require Import ZArith QArith List Bool Lia.
From stdpp Require Import base gmap strings list sorting.

Local Open Scope string_scope.
Local Open Scope list_scope.
Local Open Scope Z_scope.

(** ** Cells, columns and data frames *)

(** A cell of a numeric column.  A finite float64 (or an int64) is the
    rational number it denotes: the code only compares cells with the
    integer bin edges, and those comparisons are exact. *)
Inductive float64 : Type :=
  | NaN
  | NegInf
  | Fin (q : Q)
  | PosInf.

(** A categorical array: the category list, one code per row ([-1] marks a
    missing value) and the [ordered] flag. *)
Record Categorical : Type := mkCategorical {
  categories : list string;
  codes : list Z;
  ordered : bool
}.

(** A column of a data frame, by dtype: float64 (int64 columns are read the
    same way), object (strings, [None] for a missing cell) or category. *)
Inductive Series : Type :=
  | Float64 (xs : list float64)
  | Object (xs : list (option string))
  | Category (c : Categorical).

(** A data frame maps column names to columns.  The columns of a pandas
    frame all have the length of its index. *)
Abbreviation DataFrame := (gmap string Series).

(** ** Exceptions and the state of the module *)

Inductive exn : Type :=
  | KeyError (key : string)
  | TypeError
  | ValueError
  | IndexError.

(** A computation reads and writes [worklife_df] and either raises or
    returns. *)
Definition M (A : Type) : Type := DataFrame -> DataFrame * (exn + A).

Definition ret {A} (a : A) : M A := fun df => (df, inr a).

Definition raise {A} (e : exn) : M A := fun df => (df, inl e).

Definition bind {A B} (m : M A) (k : A -> M B) : M B :=
  fun df =>
    match m df with
    | (df', inl e) => (df', inl e)
    | (df', inr a) => k a df'
    end.

Definition lift {A} (r : exn + A) : M A :=
  match r with
  | inl e => raise e
  | inr a => ret a
  end.

Declare Scope py_scope.
Delimit Scope py_scope with py.
Notation "x <- m ;; k" := (bind m (fun x => k))
  (at level 100, m at next level, right associativity) : py_scope.
Notation "m ;;; k" := (bind m (fun _ => k))
  (at level 100, right associativity) : py_scope.

(** [worklife_df[key]] *)
Definition getitem (key : string) : M Series :=
  fun df =>
    match df !! key with
    | Some col => (df, inr col)
    | None => (df, inl (KeyError key))
    end.

(** [worklife_df[key] = col].  The columns the code assigns are computed
    from a column of the frame, row by row, and have its length. *)
Definition setitem (key : string) (col : Series) : M unit :=
  fun df => (<[key := col]> df, inr tt).

(** ** pandas *)

Module pd.

(** [b < x] for a bin edge [b] and a cell [x], in the order numpy sorts
    by: NaN after every number. *)
Definition edge_ltb (b : Z) (x : float64) : bool :=
  match x with
  | NaN => true
  | NegInf => false
  | Fin q => match (inject_Z b ?= q)%Q with Lt => true | _ => false end
  | PosInf => true
  end.

Definition isna (x : float64) : bool :=
  match x with NaN => true | _ => false end.

(** [bins.searchsorted(x, side='left')] on increasing [bins]: the number
    of edges strictly below [x]. *)
Definition searchsorted_left (bins : list Z) (x : float64) : Z :=
  Z.of_nat (length (List.filter (fun b => edge_ltb b x) bins)).

Fixpoint increasing (bins : list Z) : bool :=
  match bins with
  | b :: (b' :: _) as rest => (b <? b') && increasing rest
  | _ => true
  end.

(** The code [pd.cut] gives one cell with [right=True] and the default
    [include_lowest=False]: the cell is in bin [ids - 1] when
    [bins[ids-1] < x <= bins[ids]], and missing when it is NaN, at or
    below the first edge ([ids = 0]) or above the last one
    ([ids = len(bins)]). *)
Definition cut_code (bins : list Z) (x : float64) : Z :=
  let ids := searchsorted_left bins x in
  if isna x || (ids =? Z.of_nat (length bins)) || (ids =? 0)
  then -1
  else ids - 1.

(** The cells [pd.cut] compares with the edges: those of a numeric column.
    A column of strings cannot be compared, unless it has no row at all (the
    object column a file with a header and no record gives). *)
Definition numeric (col : Series) : option (list float64) :=
  match col with
  | Float64 xs => Some xs
  | Object [] => Some []
  | Object (_ :: _) => None
  | Category _ => None
  end.

(** [pd.cut(col, bins=bins, labels=labels, right=True)].  The edges must
    increase, there is one label per bin and the labels are distinct. *)
Definition cut (col : Series) (bins : list Z) (labels : list string)
  : exn + Categorical :=
  match numeric col with
  | Some xs =>
      if negb (increasing bins) then inl ValueError
      else if negb (length labels =? length bins - 1)%nat then inl ValueError
      else if negb (bool_decide (NoDup labels)) then inl ValueError
      else inr (mkCategorical labels (map (cut_code bins) xs) true)
  | None => inl TypeError
  end.

(** Position of [s] in [cats], [-1] when absent. *)
Fixpoint get_indexer (cats : list string) (s : string) : Z :=
  match cats with
  | [] => -1
  | c :: cats' =>
      if bool_decide (c = s) then 0
      else let i := get_indexer cats' s in
           if i <? 0 then -1 else i + 1
  end.

(** The value a categorical holds at a code. *)
Definition take (cats : list string) (code : Z) : option string :=
  if code <? 0 then None else cats !! Z.to_nat code.

(** The values of a column as [pd.Categorical] matches them against string
    categories: a number never equals a string. *)
Definition values (col : Series) : list (option string) :=
  match col with
  | Float64 xs => map (fun _ => None) xs
  | Object xs => xs
  | Category c => map (take (categories c)) (codes c)
  end.

Definition code_of (cats : list string) (v : option string) : Z :=
  match v with
  | None => -1
  | Some s => get_indexer cats s
  end.

(** [pd.Categorical(col, categories=cats, ordered=True)]: values outside
    [cats] become missing; duplicate categories are refused. *)
Definition Categorical (col : Series) (cats : list string)
  : exn + Categorical :=
  if negb (bool_decide (NoDup cats)) then inl ValueError
  else inr (mkCategorical cats (map (code_of cats) (values col)) true).

End pd.

(** ** Grouping two categorical columns *)

(** The frame [groupby([a, b]).size().reset_index(name='count')] returns for
    two categorical keys: the two key columns (categoricals with the
    categories of the grouped columns) and the group sizes. *)
Record ValueCounts : Type := mkValueCounts {
  key_source : Categorical;
  key_target : Categorical;
  count : list Z
}.

Module groupby.

Definition range (n : nat) : list Z := map Z.of_nat (seq 0 n).

(** Every pair of category codes, sorted by first then second key. *)
Definition product (na nb : nat) : list (Z * Z) :=
  flat_map (fun i => map (fun j => (i, j)) (range nb)) (range na).

Definition in_group (key : Z * Z) (row : Z * Z) : bool :=
  (fst row =? fst key) && (snd row =? snd key).

(** Number of rows in a group.  A row with a missing key has code [-1] and
    is in no group ([dropna=True]). *)
Definition group_size (rows : list (Z * Z)) (key : Z * Z) : Z :=
  Z.of_nat (length (List.filter (in_group key) rows)).

(** [observed] is the default of the [observed] argument of [groupby],
    which the code does not pass: [False] up to pandas 2.x (every pair of
    categories gets a row, of size 0 when no record has it), [True] from
    pandas 3.0 (only the pairs that occur). *)
Definition size (observed : bool) (a b : Categorical) : ValueCounts :=
  let rows := combine (codes a) (codes b) in
  let groups :=
    map (fun key => (key, group_size rows key))
        (product (length (categories a)) (length (categories b))) in
  let kept :=
    if observed then List.filter (fun g => 0 <? snd g) groups else groups in
  mkValueCounts
    (mkCategorical (categories a) (map (fun g => fst (fst g)) kept) (ordered a))
    (mkCategorical (categories b) (map (fun g => snd (fst g)) kept) (ordered b))
    (map snd kept).

End groupby.

(** ** Integer codes *)

(** Width of the integer dtype pandas stores the codes of [ncat] categories
    in. *)
Definition codes_bits (ncat : nat) : Z :=
  if (Z.of_nat ncat <? 127) then 8
  else if (Z.of_nat ncat <? 32767) then 16
  else if (Z.of_nat ncat <? 2147483647) then 32
  else 64.

(** Two's complement wrap-around of a [bits]-wide signed integer. *)
Definition wrap (bits : Z) (z : Z) : Z :=
  (z + 2 ^ (bits - 1)) mod 2 ^ bits - 2 ^ (bits - 1).

(** [col.astype('category').cat.codes] of a column that is categorical
    already. *)
Definition cat_codes (c : Categorical) : list Z := codes c.

(** [codes + n]: the sum stays in the dtype of the codes. *)
Definition codes_add (c : Categorical) (n : Z) : list Z :=
  map (fun code => wrap (codes_bits (length (categories c))) (code + n))
      (cat_codes c).

(** ** The builder *)

(** The dictionary [prepare_sankey_data] returns. *)
Record SankeyData : Type := mkSankeyData {
  labels : list string;
  node_colors : list string;
  source : list Z;
  target : list Z;
  value : list Z;
  link_colors : list string
}.

Definition bins : list Z := [0; 10; 20; 30; 40; 50; 60; 70; 80; 90; 100].

Definition bin_labels : list string :=
  ["0-10"; "11-20"; "21-30"; "31-40"; "41-50"; "51-60"; "61-70"; "71-80";
   "81-90"; "91-100"].

(** The [if]/[elif]/[else] chain of lines 175-180. *)
Definition link_color (stress : option string) : string :=
  if bool_decide (stress = Some "Low") then "rgba(126,217,87,0.5)"
  else if bool_decide (stress = Some "Medium") then "rgba(255,193,7,0.5)"
  else "rgba(255,76,76,0.5)".

(** [[d[k] for k in keys]] *)
Fixpoint lookup_all (d : gmap string string) (keys : list string)
  : exn + list string :=
  match keys with
  | [] => inr []
  | k :: keys' =>
      match d !! k with
      | None => inl (KeyError k)
      | Some v =>
          match lookup_all d keys' with
          | inl e => inl e
          | inr vs => inr (v :: vs)
          end
      end
  end.

Section Builder.

(** The pandas default of [observed] and the two globals of lines
    142-149. *)
Variable observed : bool.
Variable stress_level_order : list string.
Variable stress_color_mapping : gmap string string.

(** Line 143. *)
Definition stress_level_labels : list string :=
  map (fun level => level +:+ " Stress") stress_level_order.

(** [prepare_sankey_data(grouped=True)]: lines 153-158 and 164-193, in the
    order the statements run.  The [else] branch of line 159 is not taken. *)
Definition prepare_sankey_data : M SankeyData :=
  (Work_Hours <- getitem "Work_Hours" ;;
   Work_Hours_Grouped <- lift (pd.cut Work_Hours bins bin_labels) ;;
   setitem "Work_Hours_Grouped" (Category Work_Hours_Grouped) ;;;
   let source_col := "Work_Hours_Grouped" in
   let sorted_hours := bin_labels in
   let work_hours_labels :=
     map (fun label => label +:+ " Hours") sorted_hours in
   let labels := work_hours_labels ++ stress_level_labels in
   col <- getitem source_col ;;
   col' <- lift (pd.Categorical col sorted_hours) ;;
   setitem source_col (Category col') ;;;
   Stress_Level <- getitem "Stress_Level" ;;
   Stress_Level_Sorted <- lift (pd.Categorical Stress_Level stress_level_order) ;;
   setitem "Stress_Level_Sorted" (Category Stress_Level_Sorted) ;;;
   let value_counts := groupby.size observed col' Stress_Level_Sorted in
   let source_codes := cat_codes (key_source value_counts) in
   let target_codes :=
     codes_add (key_target value_counts) (Z.of_nat (length sorted_hours)) in
   let link_colors :=
     map (fun code => link_color (pd.take (categories (key_target value_counts)) code))
         (codes (key_target value_counts)) in
   let work_hours_colors := repeat "#4A90E2" (length work_hours_labels) in
   stress_colors <- lift (lookup_all stress_color_mapping stress_level_labels) ;;
   let node_colors := work_hours_colors ++ stress_colors in
   ret (mkSankeyData labels node_colors source_codes target_codes
          (count value_counts) link_colors))%py.

End Builder.

(** ** The module's globals and its call of the builder *)

(** Line 142. *)
Definition app_stress_level_order : list string := ["Low"; "Medium"; "High"].

(** Lines 145-149. *)
Definition app_stress_color_mapping : gmap string string :=
  <["Low Stress" := "#7ED957"]>
    (<["Medium Stress" := "#FFC107"]>
       (<["High Stress" := "#FF4C4C"]> ∅)).

(** Line 195: [data_grouped = prepare_sankey_data(grouped=True)]. *)
Definition data_grouped (observed : bool) : M SankeyData :=
  prepare_sankey_data observed app_stress_level_order app_stress_color_mapping.

(** The frame [read_csv] loads: one numeric work-hours cell and one stress
    label per record, next to the file's other columns. *)
Definition worklife (records : list (float64 * option string))
    (others : DataFrame) : DataFrame :=
  <["Work_Hours" := Float64 (map fst records)]>
    (<["Stress_Level" := Object (map snd records)]> others).

(** A record with an integer number of hours and a stress label. *)
Definition record_of (hours : Z) (stress : string) : float64 * option string :=
  (Fin (inject_Z hours), Some stress).

(** ** The sample of the violin plot (line 93) *)

Section Sample.

Context {Row : Type}.

(** [RandomState(seed).permutation(n)]: the seeded shuffle of [0..n-1] that
    numpy's generator draws.  Which permutation it is plays no role. *)
Variable permutation : Z -> nat -> list nat.

(** [df.take(indices)] *)
Definition take_rows (df : list Row) (indices : list nat) : exn + list Row :=
  match mapM (fun i => df !! i) indices with
  | Some rows => inr rows
  | None => inl IndexError
  end.

(** [df.sample(n=n, random_state=random_state)], without replacement (the
    default): a larger sample than the frame is refused, otherwise the rows
    at the first [n] positions of the seeded permutation are taken. *)
Definition sample (df : list Row) (n : nat) (random_state : Z)
  : exn + list Row :=
  if (length df <? n)%nat then inl ValueError
  else take_rows df (take n (permutation random_state (length df))).

(** Line 93. *)
Definition sampled_health_df (health_df : list Row) : exn + list Row :=
  sample health_df 3500 42.

End Sample.

(** ** Definitions the statements use *)

(** The buckets [pd.cut] builds from consecutive edges: [(lo, hi]]. *)
Definition buckets : list (Z * Z) := combine bins (tl bins).

Definition in_bucket (x : float64) (b : Z * Z) : bool :=
  match x with
  | Fin q => negb (Qle_bool q (inject_Z (fst b))) && Qle_bool q (inject_Z (snd b))
  | _ => false
  end.

(** The cell lies in some bucket. *)
Definition bucketed (x : float64) : bool := existsb (in_bucket x) buckets.

(** The label is one of the categories. *)
Definition listed (cats : list string) (v : option string) : bool :=
  match v with
  | Some s => bool_decide (s ∈ cats)
  | None => false
  end.

Fixpoint sum (l : list Z) : Z :=
  match l with
  | [] => 0
  | x :: l' => x + sum l'
  end.

(** A code is one of the [n] category codes. *)
Definition is_code (n : nat) (c : Z) : bool := (0 <=? c) && (c <? Z.of_nat n).

(** The row belongs to one of the [na * nb] groups. *)
Definition grouped_row (na nb : nat) (row : Z * Z) : bool :=
  is_code na (fst row) && is_code nb (snd row).

(** The (bucket code, level code) of a record, as lines 155 and 167 compute
    them. *)
Definition record_codes (order : list string)
    (record : float64 * option string) : Z * Z :=
  (pd.cut_code bins (fst record), pd.code_of order (snd record)).

(** The column line 155 assigns. *)
Definition grouped_hours (xs : list float64) : Categorical :=
  mkCategorical bin_labels (map (pd.cut_code bins) xs) true.

(** The column line 167 assigns. *)
Definition sorted_stress (order : list string) (col : Series) : Categorical :=
  mkCategorical order (map (pd.code_of order) (pd.values col)) true.

(** The dictionary lines 164-193 build from the two columns and the node
    colors of the stress levels. *)
Definition sankey (observed : bool) (order : list string)
    (stress_colors : list string) (hours stress : Categorical) : SankeyData :=
  let value_counts := groupby.size observed hours stress in
  mkSankeyData
    (map (fun label => label +:+ " Hours") bin_labels
       ++ stress_level_labels order)
    (repeat "#4A90E2" (length (map (fun label => label +:+ " Hours") bin_labels))
       ++ stress_colors)
    (cat_codes (key_source value_counts))
    (codes_add (key_target value_counts) (Z.of_nat (length bin_labels)))
    (count value_counts)
    (map (fun code => link_color (pd.take (categories (key_target value_counts)) code))
         (codes (key_target value_counts))).

(** What a call does, as a function of the two columns it reads: the frame
    it leaves and what it returns or raises. *)
Definition outcome (observed : bool) (order : list string)
    (mapping : gmap string string) (df : DataFrame)
    : DataFrame * (exn + SankeyData) :=
  match df !! "Work_Hours" with
  | None => (df, inl (KeyError "Work_Hours"))
  | Some hours =>
      match pd.numeric hours with
      | None => (df, inl TypeError)
      | Some xs =>
          let df1 :=
            <["Work_Hours_Grouped" := Category (grouped_hours xs)]> df in
          match df !! "Stress_Level" with
          | None => (df1, inl (KeyError "Stress_Level"))
          | Some col =>
              match pd.Categorical col order with
              | inl e => (df1, inl e)
              | inr stress =>
                  let df2 := <["Stress_Level_Sorted" := Category stress]> df1 in
                  match lookup_all mapping (stress_level_labels order) with
                  | inl e => (df2, inl e)
                  | inr colors =>
                      (df2, inr (sankey observed order colors
                                   (grouped_hours xs) stress))
                  end
              end
          end
      end
  end.

(** The frame a call leaves. *)
Definition assigned (order : list string) (xs : list float64) (col : Series)
    (df : DataFrame) : DataFrame :=
  <["Stress_Level_Sorted" := Category (sorted_stress order col)]>
    (<["Work_Hours_Grouped" := Category (grouped_hours xs)]> df).

(** The node colors of the three stress levels. *)
Definition app_stress_colors : list string := ["#7ED957"; "#FFC107"; "#FF4C4C"].

(** ** The cleaned frame of the bubble chart (line 32) *)

(** [col.notna()]: a NaN, an empty object cell and a missing category are
    missing; an infinity is not. *)
Definition notna (col : Series) : list bool :=
  match col with
  | Float64 xs => map (fun x => negb (pd.isna x)) xs
  | Object xs => map (fun v => match v with Some _ => true | None => false end) xs
  | Category c => map (fun code => 0 <=? code) (codes c)
  end.

(** The cells of [l] at the rows where [mask] holds. *)
Fixpoint select {A} (mask : list bool) (l : list A) : list A :=
  match mask, l with
  | keep :: mask', x :: l' =>
      if keep then x :: select mask' l' else select mask' l'
  | _, _ => []
  end.

(** [col[mask]] *)
Definition select_rows (mask : list bool) (col : Series) : Series :=
  match col with
  | Float64 xs => Float64 (select mask xs)
  | Object xs => Object (select mask xs)
  | Category c =>
      Category (mkCategorical (categories c) (select mask (codes c)) (ordered c))
  end.

(** [df.dropna(subset=[subset])]: a new frame with the rows whose cell in
    the column [subset] is not missing.  A column that does not exist is a
    [KeyError]; its argument stands for the list of missing names pandas
    reports. *)
Definition dropna (subset : string) (df : DataFrame) : exn + DataFrame :=
  match df !! subset with
  | None => inl (KeyError subset)
  | Some col => inr (select_rows (notna col) <$> df)
  end.

(** Line 32. *)
Definition cleaned_df (happiness_df : DataFrame) : exn + DataFrame :=
  dropna "Explained by: Social support" happiness_df.

(** Number of rows of a column. *)
Definition rows_of (col : Series) : nat :=
  match col with
  | Float64 xs => length xs
  | Object xs => length xs
  | Category c => length (codes c)
  end.

(** Number of rows a mask keeps. *)
Definition count_true (mask : list bool) : nat :=
  length (List.filter (fun keep => keep) mask).

(** ** The long table of the treemap (lines 66-70) *)

(** A cell of any column. *)
Inductive cell : Type :=
  | Number (x : float64)
  | Text (s : string)
  | Missing.

Definition cells (col : Series) : list cell :=
  match col with
  | Float64 xs => map Number xs
  | Object xs =>
      map (fun v => match v with Some s => Text s | None => Missing end) xs
  | Category c =>
      map (fun code => match pd.take (categories c) code with
                       | Some s => Text s
                       | None => Missing
                       end) (codes c)
  end.

(** [df[names]]: the listed columns, in the listed order.  A name that is
    not a column is a [KeyError]; the first such name stands for the message
    pandas builds from the missing names. *)
Fixpoint getitems (names : list string) (df : DataFrame)
  : exn + list (string * Series) :=
  match names with
  | [] => inr []
  | name :: names' =>
      match df !! name with
      | None => inl (KeyError name)
      | Some col =>
          match getitems names' df with
          | inl e => inl e
          | inr cols => inr ((name, col) :: cols)
          end
      end
  end.

(** A row of the long table: the identifier cell, the factor and its code
    once line 68 made the column categorical, and the value. *)
Record LongRow : Type := mkLongRow {
  Country_name : cell;
  Factor : string;
  Factor_code : Z;
  Value : cell
}.

Definition factors : list string :=
  ["Explained by: Log GDP per capita"; "Explained by: Social support";
   "Explained by: Healthy life expectancy"].

(** [melt(id_vars=.., var_name='Factor', value_name='Value')] followed by
    line 68: the value columns are stacked one after the other in their
    order, next to the identifier column repeated and the name of the column
    each value comes from. *)
Definition melt (id_col : Series) (value_cols : list (string * Series))
  : list LongRow :=
  flat_map
    (fun named : string * Series =>
       map (fun row : cell * cell =>
              mkLongRow (fst row) (fst named)
                        (pd.get_indexer factors (fst named)) (snd row))
           (combine (cells id_col) (cells (snd named))))
    value_cols.

(** Lines 66-70, from [top20]. *)
Definition tree_long (top20 : DataFrame) : exn + list LongRow :=
  match getitems ("Country name" :: factors) top20 with
  | inl e => inl e
  | inr [] => inr []
  | inr ((_, id_col) :: value_cols) => inr (melt id_col value_cols)
  end.

(** The rows one value column contributes. *)
Definition block (id_col : Series) (named : string * Series) : list LongRow :=
  map (fun row : cell * cell =>
         mkLongRow (fst row) (fst named)
                   (pd.get_indexer factors (fst named)) (snd row))
      (combine (cells id_col) (cells (snd named))).

(** The hours the labels of the buckets name, "0-10" up to "91-100": from
    0 to 100, both ends included. *)
Definition in_labelled_range (x : float64) : bool :=
  match x with
  | Fin q => Qle_bool 0 q && Qle_bool q 100
  | _ => false
  end.

(** Exactly 0 hours. *)
Definition zero_hours (x : float64) : bool :=
  match x with
  | Fin q => Qeq_bool q 0
  | _ => false
  end.

(** ** Definitions the further properties use *)

(** The edges of a result, (source, target, weight), in the order of the
    three arrays. *)
Definition edge_list (r : SankeyData) : list (Z * Z * Z) :=
  combine (combine (source r) (target r)) (value r).

(** The records that lie on the edge from node [s] to node [t]: their bucket
    is node [s] and their stress level is node [t], the level nodes coming
    after the bucket nodes. *)
Definition edge_records (records : list (float64 * option string))
    (s t : Z) : list (float64 * option string) :=
  List.filter
    (fun record =>
       (pd.cut_code bins (fst record) =? s)
       && (pd.code_of app_stress_level_order (snd record)
           =? t - Z.of_nat (length bin_labels)))
    records.

(** Order of the edges: by source node, then by target node. *)
Definition edge_lt (a b : Z * Z) : Prop :=
  fst a < fst b \/ (fst a = fst b /\ snd a < snd b).

(** The tint of the edges into a stress node. *)
Definition target_color (t : Z) : string :=
  if t =? 10 then "rgba(126,217,87,0.5)"
  else if t =? 11 then "rgba(255,193,7,0.5)"
  else "rgba(255,76,76,0.5)".

(** Every (bucket, level) pair with the number of its records, and the
    pairs [groupby] keeps. *)
Definition groups_of (records : list (float64 * option string))
  : list (Z * Z * Z) :=
  map (fun key =>
         (key, groupby.group_size
                 (map (record_codes app_stress_level_order) records) key))
      (groupby.product (length bin_labels) (length app_stress_level_order)).

Definition kept_groups (observed : bool)
    (records : list (float64 * option string)) : list (Z * Z * Z) :=
  if observed then List.filter (fun g => 0 <? snd g) (groups_of records)
  else groups_of records.

(** * Properties *)

(** ** The model on small inputs *)

Example cut_code_cells :
  map (pd.cut_code bins)
      [Fin (inject_Z 0); Fin (inject_Z 5); Fin (inject_Z 10); Fin (21 # 2);
       Fin (inject_Z 11); Fin (inject_Z 100); Fin (201 # 2); NaN; NegInf;
       PosInf]
  = [-1; 0; 0; 1; 1; 9; -1; -1; -1; -1].
Proof. reflexivity. Qed.

Example Categorical_codes :
  pd.Categorical (Object [Some "High"; Some "Low"; None; Some "low"])
                 app_stress_level_order
  = inr (mkCategorical app_stress_level_order [2; 0; -1; -1] true).
Proof. vm_compute. reflexivity. Qed.

Example data_grouped_observed :
  snd (data_grouped true
         (worklife [record_of 5 "Low"; record_of 15 "Low"; record_of 5 "High"] ∅))
  = inr (mkSankeyData
           ["0-10 Hours"; "11-20 Hours"; "21-30 Hours"; "31-40 Hours";
            "41-50 Hours"; "51-60 Hours"; "61-70 Hours"; "71-80 Hours";
            "81-90 Hours"; "91-100 Hours"; "Low Stress"; "Medium Stress";
            "High Stress"]
           ["#4A90E2"; "#4A90E2"; "#4A90E2"; "#4A90E2"; "#4A90E2"; "#4A90E2";
            "#4A90E2"; "#4A90E2"; "#4A90E2"; "#4A90E2"; "#7ED957"; "#FFC107";
            "#FF4C4C"]
           [0; 0; 1] [10; 12; 10] [1; 1; 1]
           ["rgba(126,217,87,0.5)"; "rgba(255,76,76,0.5)";
            "rgba(126,217,87,0.5)"]).
Proof. vm_compute. reflexivity. Qed.

Example data_grouped_missing_column :
  snd (data_grouped true (<["Work_Hours" := Float64 [Fin (inject_Z 5)]]> ∅))
  = inl (KeyError "Stress_Level").
Proof. vm_compute. reflexivity. Qed.

(** ** [pd.cut] on the bins of the program *)

Lemma edge_ltb_Fin (b : Z) (q : Q) :
  pd.edge_ltb b (Fin q) = (b * Zpos (Qden q) <? Qnum q).
Proof.
  unfold pd.edge_ltb, Qcompare, inject_Z. simpl.
  rewrite Z.mul_1_r. unfold Z.ltb.
  destruct (Qnum q ?= b * Z.pos (Qden q)) eqn:E;
    rewrite Z.compare_antisym, E; reflexivity.
Qed.

Lemma Qle_bool_inject_Z (q : Q) (b : Z) :
  Qle_bool q (inject_Z b) = (Qnum q <=? b * Zpos (Qden q)).
Proof. unfold Qle_bool, inject_Z. simpl. rewrite Z.mul_1_r. reflexivity. Qed.

Ltac split_comparisons :=
  repeat match goal with
    | |- context [Z.ltb ?a ?b] =>
        destruct (Z.ltb_spec a b); try (exfalso; lia)
    | |- context [Z.leb ?a ?b] =>
        destruct (Z.leb_spec a b); try (exfalso; lia)
    end.

(** Where [searchsorted] puts a finite cell among the edges of the program. *)
Lemma searchsorted_Fin (q : Q) :
  let n := Qnum q in
  let d := Zpos (Qden q) in
  exists k, pd.searchsorted_left bins (Fin q) = k /\ 0 <= k <= 11 /\
    (k = 0 -> n <= 0) /\ (k = 11 -> 100 * d < n) /\
    (1 <= k <= 10 -> 10 * (k - 1) * d < n <= 10 * k * d).
Proof.
  intros n d. unfold pd.searchsorted_left, bins.
  cbn [List.filter]. rewrite !edge_ltb_Fin. fold n d.
  assert (0 < d) by (subst d; lia). clearbody n d.
  split_comparisons; cbn; eexists; (split; [reflexivity | lia]).
Qed.

(** The code of a finite cell, by the position of [q] among the edges. *)
Lemma cut_code_Fin (q : Q) :
  let n := Qnum q in
  let d := Zpos (Qden q) in
  (pd.cut_code bins (Fin q) = -1 /\ (n <= 0 \/ 100 * d < n)) \/
  (exists i, pd.cut_code bins (Fin q) = i /\ 0 <= i <= 9 /\
             10 * i * d < n <= 10 * (i + 1) * d).
Proof.
  intros n d. unfold pd.cut_code.
  destruct (searchsorted_Fin q) as (k & -> & Hk & H0 & H11 & Hmid).
  fold n d in H0, H11, Hmid. cbn [pd.isna orb length bins].
  destruct (Z.eqb_spec k (Z.of_nat 11)) as [E|E]; cbn [orb].
  { left. split; [reflexivity | right; apply H11; lia]. }
  destruct (Z.eqb_spec k 0) as [E0|E0].
  { left. split; [reflexivity | left; auto]. }
  right. exists (k - 1). split; [reflexivity|].
  replace (k - 1 + 1) with k by lia. split; [lia | apply Hmid; lia].
Qed.

Lemma cut_code_range (x : float64) : -1 <= pd.cut_code bins x <= 9.
Proof.
  destruct x as [| |q|].
  1, 2, 4: vm_compute; split; discriminate.
  destruct (cut_code_Fin q) as [[-> _]|(i & -> & Hi & _)]; lia.
Qed.

(** The buckets together are the interval (0, 100]. *)
Lemma bucketed_Fin (q : Q) :
  bucketed (Fin q) = true <-> (0 < q /\ q <= 100)%Q.
Proof.
  unfold bucketed, buckets, bins, in_bucket.
  cbn [tl combine existsb fst snd].
  rewrite !Qle_bool_inject_Z.
  unfold Qlt, Qle. simpl. rewrite !Z.mul_1_r.
  assert (0 < Z.pos (Qden q)) by lia.
  generalize dependent (Z.pos (Qden q)). generalize (Qnum q). intros n d Hd.
  split_comparisons; cbn; split; intros; try discriminate; try reflexivity;
    try lia.
Qed.

(** A cell has a code exactly when it lies in one of the buckets. *)
Lemma bucketed_cut_code (x : float64) :
  bucketed x = (0 <=? pd.cut_code bins x).
Proof.
  destruct x as [| |q|].
  1, 2, 4: reflexivity.
  destruct (bucketed (Fin q)) eqn:B.
  - apply bucketed_Fin in B. unfold Qlt, Qle in B. simpl in B.
    destruct (cut_code_Fin q) as [[E HE]|(i & -> & Hi & _)]; [lia|].
    symmetry. apply Z.leb_le. lia.
  - destruct (cut_code_Fin q) as [[-> _]|(i & E & Hi & Hq)]; [reflexivity|].
    assert (bucketed (Fin q) = true); [|congruence].
    apply bucketed_Fin. unfold Qlt, Qle. simpl. nia.
Qed.

(** ** Sums and group sizes *)

Lemma sum_app (l1 l2 : list Z) : sum (l1 ++ l2) = sum l1 + sum l2.
Proof. induction l1 as [|x l1 IH]; cbn [app sum]; lia. Qed.

Lemma sum_map_add {A} (f g : A -> Z) (l : list A) :
  sum (map (fun a => f a + g a) l) = sum (map f l) + sum (map g l).
Proof. induction l as [|a l IH]; cbn [map sum]; lia. Qed.

Lemma sum_map_zero {A} (l : list A) : sum (map (fun _ => 0) l) = 0.
Proof. induction l as [|a l IH]; cbn [map sum]; lia. Qed.

Lemma sum_flat_map {A B} (f : A -> list B) (g : B -> Z) (l : list A) :
  sum (map g (flat_map f l)) = sum (map (fun a => sum (map g (f a))) l).
Proof.
  induction l as [|a l IH]; cbn [flat_map map sum]; [reflexivity|].
  rewrite map_app, sum_app, IH. reflexivity.
Qed.

Lemma sum_filter_pos (l : list (Z * Z * Z)) :
  Forall (fun g => 0 <= snd g) l ->
  sum (map snd (List.filter (fun g => 0 <? snd g) l)) = sum (map snd l).
Proof.
  induction 1 as [|g l Hg Hl IH]; [reflexivity|].
  cbn [List.filter map sum].
  destruct (Z.ltb_spec 0 (snd g)); cbn [map sum]; lia.
Qed.

Lemma range_S (n : nat) : groupby.range (S n) = groupby.range n ++ [Z.of_nat n].
Proof. unfold groupby.range. rewrite seq_S, map_app. reflexivity. Qed.

Lemma In_range (n : nat) (c : Z) :
  In c (groupby.range n) <-> 0 <= c < Z.of_nat n.
Proof.
  unfold groupby.range. rewrite in_map_iff. split.
  - intros (k & <- & Hk). apply in_seq in Hk. lia.
  - intros Hc. exists (Z.to_nat c). split; [lia|]. apply in_seq. lia.
Qed.

(** Exactly one code of the range equals a given code, if any. *)
Lemma sum_range_select (n : nat) (c w : Z) :
  sum (map (fun j => if c =? j then w else 0) (groupby.range n))
  = if is_code n c then w else 0.
Proof.
  unfold is_code. induction n as [|n IH].
  - cbn [groupby.range seq map sum].
    destruct (Z.leb_spec 0 c), (Z.ltb_spec c (Z.of_nat 0)); cbn [andb];
      first [reflexivity | lia].
  - rewrite range_S, map_app, sum_app, IH. cbn [map sum].
    destruct (Z.eqb_spec c (Z.of_nat n)), (Z.leb_spec 0 c),
      (Z.ltb_spec c (Z.of_nat n)), (Z.ltb_spec c (Z.of_nat (S n)));
      cbn [andb]; lia.
Qed.

Lemma length_pairs {A B} (l1 : list A) (l2 : list B) :
  length (flat_map (fun i => map (fun j => (i, j)) l2) l1)
  = (length l1 * length l2)%nat.
Proof.
  induction l1 as [|i l1 IH]; [reflexivity|].
  cbn [flat_map length]. rewrite length_app, length_map, IH. lia.
Qed.

Section GroupSizes.

Variables na nb : nat.

Lemma In_product (key : Z * Z) :
  In key (groupby.product na nb) <->
  (0 <= fst key < Z.of_nat na /\ 0 <= snd key < Z.of_nat nb).
Proof.
  unfold groupby.product. rewrite in_flat_map. split.
  - intros (i & Hi & Hkey). apply in_map_iff in Hkey as (j & <- & Hj).
    apply In_range in Hi, Hj. cbn. lia.
  - intros [Hi Hj]. exists (fst key). split; [apply In_range; lia|].
    apply in_map_iff. exists (snd key). split; [|apply In_range; lia].
    destruct key; reflexivity.
Qed.

Lemma length_product : length (groupby.product na nb) = (na * nb)%nat.
Proof.
  unfold groupby.product, groupby.range.
  rewrite length_pairs, !length_map, !length_seq. reflexivity.
Qed.

(** A row is counted by exactly one group, or by none. *)
Lemma sum_product_select (row : Z * Z) :
  sum (map (fun key => if groupby.in_group key row then 1 else 0)
           (groupby.product na nb))
  = if grouped_row na nb row then 1 else 0.
Proof.
  unfold groupby.product, grouped_row. rewrite sum_flat_map.
  rewrite (List.map_ext _
    (fun i => if fst row =? i
              then (if is_code nb (snd row) then 1 else 0) else 0)).
  - rewrite sum_range_select.
    destruct (is_code na (fst row)), (is_code nb (snd row)); reflexivity.
  - intros i. rewrite map_map.
    rewrite (List.map_ext _
      (fun j => if snd row =? j
                then (if fst row =? i then 1 else 0) else 0)).
    + rewrite sum_range_select.
      destruct (is_code nb (snd row)), (fst row =? i); reflexivity.
    + intros j. unfold groupby.in_group. cbn [fst snd].
      destruct (fst row =? i), (snd row =? j); reflexivity.
Qed.

Lemma group_size_cons (row : Z * Z) (rows : list (Z * Z)) (key : Z * Z) :
  groupby.group_size (row :: rows) key
  = (if groupby.in_group key row then 1 else 0) + groupby.group_size rows key.
Proof.
  unfold groupby.group_size. cbn [List.filter].
  destruct (groupby.in_group key row); cbn [length]; lia.
Qed.

Lemma group_size_nonneg (rows : list (Z * Z)) (key : Z * Z) :
  0 <= groupby.group_size rows key.
Proof. unfold groupby.group_size. lia. Qed.

(** The sizes of all groups add up to the number of rows that have both
    keys. *)
Lemma sum_group_sizes (rows : list (Z * Z)) :
  sum (map (groupby.group_size rows) (groupby.product na nb))
  = Z.of_nat (length (List.filter (grouped_row na nb) rows)).
Proof.
  induction rows as [|row rows IH].
  - cbn [List.filter length]. unfold groupby.group_size. cbn.
    apply sum_map_zero.
  - erewrite map_ext by (intros; apply group_size_cons).
    rewrite sum_map_add, IH, sum_product_select. cbn [List.filter].
    destruct (grouped_row na nb row); cbn [length]; lia.
Qed.

End GroupSizes.

(** ** What [groupby.size] returns *)

Section Size.

Variable observed : bool.
Variables a b : Categorical.

Abbreviation na := (length (categories a)).
Abbreviation nb := (length (categories b)).
Abbreviation rows := (combine (codes a) (codes b)).
Abbreviation vc := (groupby.size observed a b).

Lemma size_kept :
  exists kept : list (Z * Z * Z),
    codes (key_source vc) = map (fun g => fst (fst g)) kept /\
    codes (key_target vc) = map (fun g => snd (fst g)) kept /\
    count vc = map snd kept /\
    Forall (fun g => In (fst g) (groupby.product na nb) /\
                     snd g = groupby.group_size rows (fst g) /\
                     (observed = true -> 0 < snd g)) kept /\
    sum (map snd kept) = Z.of_nat (length (List.filter (grouped_row na nb) rows)).
Proof.
  unfold groupby.size.
  set (groups := map (fun key => (key, groupby.group_size rows key))
                     (groupby.product na nb)).
  assert (Hg : Forall (fun g => In (fst g) (groupby.product na nb) /\
                                snd g = groupby.group_size rows (fst g)) groups).
  { apply List.Forall_forall. intros g Hin. apply in_map_iff in Hin as (key & <- & Hkey).
    split; [exact Hkey | reflexivity]. }
  assert (Hsum : sum (map snd groups)
                 = Z.of_nat (length (List.filter (grouped_row na nb) rows))).
  { subst groups. rewrite map_map. cbn [snd]. apply sum_group_sizes. }
  destruct observed.
  - exists (List.filter (fun g => 0 <? snd g) groups). cbn.
    repeat split; try reflexivity.
    + apply List.Forall_forall. intros g Hin. apply filter_In in Hin as [Hin Hpos].
      rewrite List.Forall_forall in Hg. destruct (Hg g Hin) as [H1 H2].
      repeat split; auto. intros _. apply Z.ltb_lt, Hpos.
    + rewrite sum_filter_pos; [exact Hsum|].
      eapply List.Forall_impl; [|exact Hg]. intros g [_ ->].
      apply group_size_nonneg.
  - exists groups. cbn. repeat split; try reflexivity.
    + eapply List.Forall_impl; [|exact Hg]. intros g [H1 H2].
      repeat split; auto. discriminate.
    + exact Hsum.
Qed.

Lemma size_lengths :
  length (codes (key_source vc)) = length (count vc) /\
  length (codes (key_target vc)) = length (count vc).
Proof.
  destruct size_kept as (kept & -> & -> & -> & _).
  rewrite !length_map. split; reflexivity.
Qed.

Lemma size_source_codes :
  Forall (fun c => 0 <= c < Z.of_nat na) (codes (key_source vc)).
Proof.
  destruct size_kept as (kept & -> & _ & _ & Hk & _).
  apply List.Forall_map. eapply List.Forall_impl; [|exact Hk].
  intros g (Hin & _). apply In_product in Hin. lia.
Qed.

Lemma size_target_codes :
  Forall (fun c => 0 <= c < Z.of_nat nb) (codes (key_target vc)).
Proof.
  destruct size_kept as (kept & _ & -> & _ & Hk & _).
  apply List.Forall_map. eapply List.Forall_impl; [|exact Hk].
  intros g (Hin & _). apply In_product in Hin. lia.
Qed.

Lemma size_count_sum :
  sum (count vc) = Z.of_nat (length (List.filter (grouped_row na nb) rows)).
Proof. destruct size_kept as (kept & _ & _ & -> & _ & Hs). exact Hs. Qed.

Lemma size_count_pos :
  observed = true -> Forall (fun w => 0 < w) (count vc).
Proof.
  intros Hobs. destruct size_kept as (kept & _ & _ & -> & Hk & _).
  apply List.Forall_map. eapply List.Forall_impl; [|exact Hk].
  intros g (_ & _ & Hpos). auto.
Qed.

End Size.

(** ** One call of the builder, step by step *)

Lemma cut_numeric (col : Series) (xs : list float64) :
  pd.numeric col = Some xs ->
  pd.cut col bins bin_labels = inr (grouped_hours xs).
Proof.
  intros Hnum. unfold pd.cut. rewrite Hnum.
  replace (pd.increasing bins) with true by reflexivity.
  replace (length bin_labels =? length bins - 1)%nat with true by reflexivity.
  replace (bool_decide (NoDup bin_labels)) with true by (vm_compute; reflexivity).
  reflexivity.
Qed.

Lemma cut_bins (xs : list float64) :
  pd.cut (Float64 xs) bins bin_labels = inr (grouped_hours xs).
Proof.
  unfold pd.cut. cbn [pd.numeric].
  replace (pd.increasing bins) with true by reflexivity.
  replace (length bin_labels =? length bins - 1)%nat with true by reflexivity.
  replace (bool_decide (NoDup bin_labels)) with true by (vm_compute; reflexivity).
  reflexivity.
Qed.

Lemma code_of_take_bin_labels (c : Z) :
  -1 <= c <= 9 -> pd.code_of bin_labels (pd.take bin_labels c) = c.
Proof.
  intros Hc.
  assert (c = -1 \/ c = 0 \/ c = 1 \/ c = 2 \/ c = 3 \/ c = 4 \/ c = 5 \/
          c = 6 \/ c = 7 \/ c = 8 \/ c = 9) as H by lia.
  repeat (destruct H as [->|H]; [vm_compute; reflexivity|]).
  subst c. vm_compute. reflexivity.
Qed.

(** Line 166 leaves the column of line 155 as it is. *)
Lemma recategorize (xs : list float64) :
  pd.Categorical (Category (grouped_hours xs)) bin_labels
  = inr (grouped_hours xs).
Proof.
  unfold pd.Categorical.
  replace (bool_decide (NoDup bin_labels)) with true by (vm_compute; reflexivity).
  cbn [negb pd.values grouped_hours categories codes].
  unfold grouped_hours. f_equal. f_equal.
  rewrite !map_map. apply List.map_ext. intros x.
  apply code_of_take_bin_labels, cut_code_range.
Qed.

Lemma prepare_sankey_data_outcome (observed : bool) (order : list string)
    (mapping : gmap string string) (df : DataFrame) :
  prepare_sankey_data observed order mapping df
  = outcome observed order mapping df.
Proof.
  unfold prepare_sankey_data, outcome, bind, getitem.
  destruct (df !! "Work_Hours") as [hours|] eqn:Hwh; [|reflexivity].
  destruct (pd.numeric hours) as [xs|] eqn:Hnum;
    [|unfold pd.cut; rewrite Hnum; reflexivity].
  rewrite (cut_numeric hours xs Hnum).
  unfold lift at 1. unfold ret at 1. unfold setitem at 1.
  rewrite lookup_insert_eq, recategorize.
  unfold lift at 1. unfold ret at 1. unfold setitem at 1.
  rewrite insert_insert_eq.
  rewrite lookup_insert_ne by discriminate.
  destruct (df !! "Stress_Level") as [col|] eqn:Hsl; [|reflexivity].
  destruct (pd.Categorical col order) as [e|stress] eqn:Hst; [reflexivity|].
  unfold lift at 1. unfold ret at 1. unfold setitem at 1.
  destruct (lookup_all mapping (stress_level_labels order)) as [e|colors];
    reflexivity.
Qed.

(** ** Category codes *)

Lemma get_indexer_range (cats : list string) (s : string) :
  -1 <= pd.get_indexer cats s < Z.of_nat (length cats).
Proof.
  induction cats as [|c cats IH]; cbn [pd.get_indexer length]; [lia|].
  destruct (bool_decide (c = s)); [lia|].
  destruct (Z.ltb_spec (pd.get_indexer cats s) 0); lia.
Qed.

Lemma get_indexer_listed (cats : list string) (s : string) :
  (0 <=? pd.get_indexer cats s) = bool_decide (s ∈ cats).
Proof.
  induction cats as [|c cats IH]; cbn [pd.get_indexer].
  - symmetry. apply bool_decide_eq_false. apply not_elem_of_nil.
  - destruct (decide (c = s)) as [->|Hne].
    + rewrite bool_decide_eq_true_2 by reflexivity.
      symmetry. apply bool_decide_eq_true. apply list_elem_of_here.
    + rewrite (bool_decide_eq_false_2 (c = s)) by exact Hne.
      destruct (Z.ltb_spec (pd.get_indexer cats s) 0) as [Hlt|Hge].
      * replace (0 <=? -1) with false by reflexivity.
        replace (0 <=? pd.get_indexer cats s) with false in IH
          by (symmetry; apply Z.leb_gt; exact Hlt).
        symmetry in IH. apply bool_decide_eq_false in IH.
        symmetry. apply bool_decide_eq_false.
        intros Hin. apply elem_of_cons in Hin as [->|Hin]; [congruence|auto].
      * replace (0 <=? pd.get_indexer cats s + 1) with true
          by (symmetry; apply Z.leb_le; lia).
        replace (0 <=? pd.get_indexer cats s) with true in IH
          by (symmetry; apply Z.leb_le; exact Hge).
        symmetry in IH. apply bool_decide_eq_true in IH.
        symmetry. apply bool_decide_eq_true. apply list_elem_of_further, IH.
Qed.

Lemma is_code_code_of (cats : list string) (v : option string) :
  is_code (length cats) (pd.code_of cats v) = listed cats v.
Proof.
  unfold is_code. destruct v as [s|]; cbn [pd.code_of listed]; [|reflexivity].
  rewrite get_indexer_listed.
  pose proof (get_indexer_range cats s) as [_ Hlt].
  apply Z.ltb_lt in Hlt. rewrite Hlt. apply andb_true_r.
Qed.

Lemma is_code_cut_code (x : float64) :
  is_code (length bin_labels) (pd.cut_code bins x) = bucketed x.
Proof.
  unfold is_code. rewrite bucketed_cut_code.
  pose proof (cut_code_range x) as [_ Hle].
  replace (pd.cut_code bins x <? Z.of_nat (length bin_labels)) with true.
  - apply andb_true_r.
  - symmetry. apply Z.ltb_lt. cbn. lia.
Qed.

Lemma combine_record_codes (order : list string)
    (records : list (float64 * option string)) :
  combine (map (pd.cut_code bins) (map fst records))
          (map (pd.code_of order) (map snd records))
  = map (record_codes order) records.
Proof.
  induction records as [|record records IH]; [reflexivity|].
  cbn [map combine]. rewrite IH. reflexivity.
Qed.

Lemma filter_map_length {A B} (f : A -> B) (p : B -> bool) (l : list A) :
  length (List.filter p (map f l)) = length (List.filter (fun a => p (f a)) l).
Proof.
  induction l as [|a l IH]; [reflexivity|].
  cbn [map List.filter]. destruct (p (f a)); cbn [length]; rewrite IH;
    reflexivity.
Qed.

(** ** The call of the program on a loaded frame *)

Lemma app_lookup_all :
  lookup_all app_stress_color_mapping (stress_level_labels app_stress_level_order)
  = inr app_stress_colors.
Proof. vm_compute. reflexivity. Qed.

Lemma app_Categorical (col : Series) :
  pd.Categorical col app_stress_level_order
  = inr (sorted_stress app_stress_level_order col).
Proof.
  unfold pd.Categorical.
  replace (bool_decide (NoDup app_stress_level_order)) with true
    by (vm_compute; reflexivity).
  reflexivity.
Qed.

Lemma data_grouped_frame (observed : bool) (df : DataFrame)
    (xs : list float64) (col : Series) :
  df !! "Work_Hours" = Some (Float64 xs) ->
  df !! "Stress_Level" = Some col ->
  data_grouped observed df
  = (assigned app_stress_level_order xs col df,
     inr (sankey observed app_stress_level_order app_stress_colors
            (grouped_hours xs) (sorted_stress app_stress_level_order col))).
Proof.
  intros Hwh Hsl. unfold data_grouped.
  rewrite prepare_sankey_data_outcome. unfold outcome.
  rewrite Hwh, Hsl, app_Categorical, app_lookup_all. reflexivity.
Qed.

Lemma data_grouped_worklife (observed : bool)
    (records : list (float64 * option string)) (others : DataFrame) :
  data_grouped observed (worklife records others)
  = (assigned app_stress_level_order (map fst records)
       (Object (map snd records)) (worklife records others),
     inr (sankey observed app_stress_level_order app_stress_colors
            (grouped_hours (map fst records))
            (sorted_stress app_stress_level_order (Object (map snd records))))).
Proof.
  apply data_grouped_frame; unfold worklife.
  - apply lookup_insert_eq.
  - rewrite lookup_insert_ne by discriminate. apply lookup_insert_eq.
Qed.

(** * The claims *)

Lemma value_sankey_unobserved (order colors : list string)
    (hours stress : Categorical) :
  value (sankey false order colors hours stress)
  = map (groupby.group_size (combine (codes hours) (codes stress)))
        (groupby.product (length (categories hours)) (length (categories stress))).
Proof.
  unfold sankey, groupby.size. cbn [value count]. rewrite map_map.
  apply List.map_ext. reflexivity.
Qed.

(** C1, as amended.  Whether a (bucket, category) pair without records
    becomes an edge is decided by the default of [observed] in [groupby],
    which the code does not pass.  With the default [True] (pandas 3.0 and
    later) every emitted weight is strictly positive.  With the default
    [False] (pandas up to 2.x) the builder emits one edge for each of the 30
    pairs, whose weight is the number of records of the pair, 0 included. *)
Theorem C1_weights_by_observed_default (observed : bool)
    (records : list (float64 * option string)) (others : DataFrame) :
  exists r,
    snd (data_grouped observed (worklife records others)) = inr r /\
    if observed
    then Forall (fun w => 0 < w) (value r)
    else length (value r) = 30%nat /\
         value r
         = map (groupby.group_size
                  (map (record_codes app_stress_level_order) records))
               (groupby.product (length bin_labels)
                                (length app_stress_level_order)).
Proof.
  rewrite data_grouped_worklife. eexists. split; [reflexivity|].
  destruct observed.
  - apply size_count_pos. reflexivity.
  - rewrite value_sankey_unobserved.
    cbn [grouped_hours sorted_stress codes categories pd.values].
    rewrite combine_record_codes. split; [|reflexivity].
    rewrite length_map, length_product. reflexivity.
Qed.

(** C1 fails as stated: with the default [observed=False] the records of the
    spec's own example give edges of weight 0. *)
Lemma C1_zero_weight_edge :
  exists r,
    snd (data_grouped false
           (worklife [record_of 5 "Low"; record_of 15 "Low"; record_of 5 "High"] ∅))
    = inr r /\
    value r = [1; 0; 1; 1; 0; 0; 0; 0; 0; 0; 0; 0; 0; 0; 0;
               0; 0; 0; 0; 0; 0; 0; 0; 0; 0; 0; 0; 0; 0; 0] /\
    ~ Forall (fun w => 0 < w) (value r).
Proof.
  eexists. split; [vm_compute; reflexivity|]. cbn [value]. split; [reflexivity|].
  intros H. apply List.Forall_forall with (x := 0) in H; [lia|].
  right. left. reflexivity.
Qed.

(** C2: the code does not do what the claim says.  The three records below
    have listed stress levels and hours that the labels "0-10" to "91-100"
    name, so each falls within a defined bucket, yet the weights add up to 2
    under either default of [observed]: the record with 0 hours is left out.
    This is the missed lowest edge of the binning that C3 reports. *)
Theorem C2_zero_hours_not_counted :
  let records :=
    [record_of 0 "Low"; record_of 10 "Low"; record_of 100 "High"] in
  Forall (fun record =>
            in_labelled_range (fst record) = true /\
            listed app_stress_level_order (snd record) = true) records /\
  length records = 3%nat /\
  (exists r, snd (data_grouped false (worklife records ∅)) = inr r /\
             sum (value r) = 2) /\
  (exists r, snd (data_grouped true (worklife records ∅)) = inr r /\
             sum (value r) = 2).
Proof.
  cbv zeta. split; [|split; [reflexivity|split]].
  - repeat constructor; vm_compute; reflexivity.
  - eexists. split; vm_compute; reflexivity.
  - eexists. split; vm_compute; reflexivity.
Qed.

(** C3: the code does not do what the claim says.  [pd.cut] is called with
    [right=True] and without [include_lowest=True], so the first bucket is
    (0, 10]: a record with 0 hours gets no bucket and is in no edge, although
    the label of the bucket reads "0-10". *)
Theorem C3_zero_hours_has_no_bucket :
  let df := worklife [record_of 0 "Low"] ∅ in
  pd.cut_code bins (Fin (inject_Z 0)) = -1 /\
  bucketed (Fin (inject_Z 0)) = false /\
  fst (data_grouped false df) !! "Work_Hours_Grouped"
  = Some (Category (mkCategorical bin_labels [-1] true)) /\
  (exists r, snd (data_grouped false df) = inr r /\ sum (value r) = 0) /\
  (exists r, snd (data_grouped true df) = inr r /\ value r = []).
Proof.
  cbv zeta. repeat split; try (vm_compute; reflexivity).
  - eexists. split; vm_compute; reflexivity.
  - eexists. split; vm_compute; reflexivity.
Qed.

Lemma bins_upper_bound (i : nat) (hi : Z) :
  bins !! S i = Some hi -> (i < 10)%nat /\ hi = 10 * (Z.of_nat i + 1).
Proof.
  intros H. do 10 (destruct i as [|i]; [inversion H; split; [lia|reflexivity]|]).
  destruct i; discriminate H.
Qed.

(** C4.  A record whose hours equal the upper bound of bucket [i] gets the
    code [i] in the column line 155 assigns, hence the label of that bucket
    and not the next one. *)
Theorem C4_upper_bound_closed (observed : bool)
    (records : list (float64 * option string)) (others : DataFrame)
    (k i : nat) (hi : Z) (q : Q) :
  bins !! S i = Some hi ->
  map fst records !! k = Some (Fin q) ->
  (q == inject_Z hi)%Q ->
  exists c,
    fst (data_grouped observed (worklife records others)) !! "Work_Hours_Grouped"
    = Some (Category c) /\
    codes c !! k = Some (Z.of_nat i) /\
    codes c !! k <> Some (Z.of_nat (S i)) /\
    pd.take (categories c) (Z.of_nat i) = bin_labels !! i.
Proof.
  intros Hhi Hk Hq. apply bins_upper_bound in Hhi as [Hi ->].
  rewrite data_grouped_worklife. cbn [fst]. unfold assigned.
  rewrite lookup_insert_ne by discriminate. rewrite lookup_insert_eq.
  eexists. split; [reflexivity|]. cbn [grouped_hours codes categories].
  assert (Hcode : map (pd.cut_code bins) (map fst records) !! k
                  = Some (Z.of_nat i)).
  { rewrite list_lookup_fmap, Hk. cbn [fmap option_fmap option_map]. f_equal.
    unfold Qeq in Hq. cbn [inject_Z Qnum Qden] in Hq.
    destruct (cut_code_Fin q) as [[_ Hout]|(j & -> & Hj & Hin)]; nia. }
  split; [exact Hcode|]. split.
  - rewrite Hcode. intros H. inversion H. lia.
  - unfold pd.take.
    destruct (Z.ltb_spec (Z.of_nat i) 0); [lia|]. rewrite Nat2Z.id. reflexivity.
Qed.

Lemma C4_upper_bound_closed_witness :
  exists c,
    fst (data_grouped false
           (worklife [record_of 10 "Low"; record_of 11 "Low"] ∅))
      !! "Work_Hours_Grouped"
    = Some (Category c) /\
    codes c !! 0%nat = Some (Z.of_nat 0) /\
    codes c !! 0%nat <> Some (Z.of_nat 1) /\
    pd.take (categories c) (Z.of_nat 0) = bin_labels !! 0%nat.
Proof.
  apply (C4_upper_bound_closed false
           [record_of 10 "Low"; record_of 11 "Low"] ∅ 0 0 10 (inject_Z 10));
    reflexivity.
Defined.

(** C5.  The node list is the 10 bucket labels in bucket order followed by
    the 3 stress labels in their fixed order; the colors have one entry per
    node; positions 0..12 and no others hold a node. *)
Theorem C5_node_list (observed : bool)
    (records : list (float64 * option string)) (others : DataFrame) :
  exists r,
    snd (data_grouped observed (worklife records others)) = inr r /\
    labels r = map (fun label => label +:+ " Hours") bin_labels
                 ++ map (fun level => level +:+ " Stress") app_stress_level_order /\
    length (labels r)
    = (length bin_labels + length app_stress_level_order)%nat /\
    length (labels r) = 13%nat /\
    length (node_colors r) = length (labels r) /\
    forall k : nat, is_Some (labels r !! k) <-> (k < 13)%nat.
Proof.
  rewrite data_grouped_worklife. eexists. split; [reflexivity|].
  cbn [sankey labels node_colors]. repeat split; try reflexivity.
  - intros Hk. apply lookup_lt_is_Some in Hk. exact Hk.
  - intros Hk. apply lookup_lt_is_Some. exact Hk.
Qed.

Lemma wrap_small (z : Z) : -128 <= z < 128 -> wrap 8 z = z.
Proof.
  intros Hz. unfold wrap.
  replace (2 ^ (8 - 1)) with 128 by reflexivity.
  replace (2 ^ 8) with 256 by reflexivity.
  rewrite Z.mod_small; lia.
Qed.

(** C6.  Every source index addresses a bucket node and every target index a
    stress node; the three edge arrays have one entry per edge. *)
Theorem C6_edge_index_ranges (observed : bool)
    (records : list (float64 * option string)) (others : DataFrame) :
  exists r,
    snd (data_grouped observed (worklife records others)) = inr r /\
    Forall (fun s => 0 <= s < Z.of_nat (length bin_labels)) (source r) /\
    Forall (fun t => Z.of_nat (length bin_labels) <= t
                     < Z.of_nat (length (labels r))) (target r) /\
    length (source r) = length (value r) /\
    length (target r) = length (value r) /\
    length (link_colors r) = length (value r).
Proof.
  rewrite data_grouped_worklife. eexists. split; [reflexivity|].
  set (hours := grouped_hours (map fst records)).
  set (stress := sorted_stress app_stress_level_order (Object (map snd records))).
  cbn [sankey source target value labels link_colors].
  pose proof (size_lengths observed hours stress) as [Hs Ht].
  repeat split.
  - apply (size_source_codes observed hours stress).
  - unfold codes_add, cat_codes. apply List.Forall_map.
    eapply List.Forall_impl; [|apply (size_target_codes observed hours stress)].
    intros c Hc. cbn in Hc.
    replace (codes_bits _) with 8 by reflexivity.
    rewrite wrap_small; cbn; lia.
  - exact Hs.
  - unfold codes_add, cat_codes. rewrite length_map. exact Ht.
  - rewrite length_map. exact Ht.
Qed.

Lemma Categorical_inr (col : Series) (order : list string) (stress : Categorical) :
  pd.Categorical col order = inr stress -> stress = sorted_stress order col.
Proof.
  unfold pd.Categorical. destruct (negb (bool_decide (NoDup order)));
    [discriminate|]. intros [= <-]. reflexivity.
Qed.

(** C7, as amended.  The builder, called with [grouped=True], is not free of
    side effects.  A call that returns has assigned two columns of the
    global [worklife_df]: Work_Hours_Grouped, the bucket of every record, and
    Stress_Level_Sorted, the level of every record.  A call that raises has
    assigned neither, only the first, or both.  Every other column,
    Work_Hours and Stress_Level included, is left as it was by any call. *)
Theorem C7_assigned_columns (observed : bool) (order : list string)
    (mapping : gmap string string) (df : DataFrame) :
  let call := prepare_sankey_data observed order mapping df in
  (forall key,
     key <> "Work_Hours_Grouped" -> key <> "Stress_Level_Sorted" ->
     fst call !! key = df !! key) /\
  (forall r,
     snd call = inr r ->
     exists hours xs col,
       df !! "Work_Hours" = Some hours /\ pd.numeric hours = Some xs /\
       df !! "Stress_Level" = Some col /\
       fst call !! "Work_Hours_Grouped" = Some (Category (grouped_hours xs)) /\
       fst call !! "Stress_Level_Sorted"
       = Some (Category (sorted_stress order col))) /\
  (forall e,
     snd call = inl e ->
     fst call = df \/
     (exists xs,
        fst call = <["Work_Hours_Grouped" := Category (grouped_hours xs)]> df) \/
     (exists xs col, fst call = assigned order xs col df)).
Proof.
  cbv zeta. rewrite prepare_sankey_data_outcome. unfold outcome. cbv zeta.
  destruct (df !! "Work_Hours") as [hours|] eqn:Hwh.
  2:{ cbn [fst snd]. repeat split; [discriminate | intros e _; left; reflexivity]. }
  destruct (pd.numeric hours) as [xs|] eqn:Hnum.
  2:{ cbn [fst snd]. repeat split; [discriminate | intros e _; left; reflexivity]. }
  destruct (df !! "Stress_Level") as [col|] eqn:Hsl.
  2:{ cbn [fst snd]. repeat split.
      - intros key H1 H2. apply lookup_insert_ne. congruence.
      - discriminate.
      - intros e _. right. left. exists xs. reflexivity. }
  destruct (pd.Categorical col order) as [e|stress] eqn:Hst.
  { cbn [fst snd]. repeat split.
    - intros key H1 H2. apply lookup_insert_ne. congruence.
    - discriminate.
    - intros e' _. right. left. exists xs. reflexivity. }
  apply Categorical_inr in Hst. subst stress.
  destruct (lookup_all mapping (stress_level_labels order)) as [e|colors];
    cbn [fst snd]; repeat split.
  - intros key H1 H2. rewrite !lookup_insert_ne by congruence. reflexivity.
  - discriminate.
  - intros e' _. right. right. exists xs, col. reflexivity.
  - intros key H1 H2. rewrite !lookup_insert_ne by congruence. reflexivity.
  - intros r _. exists hours, xs, col. repeat split; try reflexivity.
    + exact Hnum.
    + rewrite lookup_insert_ne by discriminate. apply lookup_insert_eq.
    + apply lookup_insert_eq.
  - discriminate.
Qed.

(** C7 fails as stated: after a call the frame has two columns it did not
    have before. *)
Lemma C7_frame_is_modified :
  let df := worklife [record_of 5 "Low"] ∅ in
  let df' := fst (data_grouped false df) in
  df !! "Work_Hours_Grouped" = None /\
  df' !! "Work_Hours_Grouped"
  = Some (Category (mkCategorical bin_labels [0] true)) /\
  df !! "Stress_Level_Sorted" = None /\
  df' !! "Stress_Level_Sorted"
  = Some (Category (mkCategorical app_stress_level_order [0] true)) /\
  df' <> df.
Proof.
  cbv zeta. repeat split; try (vm_compute; reflexivity).
  intros H. apply (f_equal (fun d : DataFrame => d !! "Work_Hours_Grouped")) in H.
  vm_compute in H. discriminate H.
Qed.

(** A call on the frame a first call left reads the same two columns. *)
Lemma outcome_again (observed : bool) (order : list string)
    (mapping : gmap string string) (df : DataFrame) :
  outcome observed order mapping (fst (outcome observed order mapping df))
  = outcome observed order mapping df.
Proof.
  unfold outcome at 2 3.
  destruct (df !! "Work_Hours") as [hours|] eqn:Hwh; cbn [fst];
    [|unfold outcome; rewrite Hwh; reflexivity].
  destruct (pd.numeric hours) as [xs|] eqn:Hnum; cbn [fst];
    [|unfold outcome; rewrite Hwh, Hnum; reflexivity].
  destruct (df !! "Stress_Level") as [col|] eqn:Hsl;
    [destruct (pd.Categorical col order) as [e|stress] eqn:Hst;
     [|destruct (lookup_all mapping (stress_level_labels order)) eqn:Hcol]|];
    cbn [fst]; unfold outcome;
    rewrite ?lookup_insert_ne by discriminate;
    rewrite Hwh, Hnum, Hsl, ?Hst, ?Hcol;
    cbv zeta; f_equal.
  - rewrite insert_insert_eq. reflexivity.
  - rewrite (insert_insert_ne _ "Work_Hours_Grouped") by discriminate.
    rewrite !insert_insert_eq. reflexivity.
  - rewrite (insert_insert_ne _ "Work_Hours_Grouped") by discriminate.
    rewrite !insert_insert_eq. reflexivity.
  - rewrite insert_insert_eq. reflexivity.
Qed.

(** C8.  A second call with the same arguments, on the frame the first call
    left, returns (or raises) what the first did and leaves the frame as the
    first left it. *)
Theorem C8_second_call_identical (observed : bool) (order : list string)
    (mapping : gmap string string) (df : DataFrame) :
  let first := prepare_sankey_data observed order mapping df in
  let second := prepare_sankey_data observed order mapping (fst first) in
  snd second = snd first /\ fst second = fst first.
Proof.
  cbv zeta. rewrite !prepare_sankey_data_outcome, outcome_again.
  split; reflexivity.
Qed.

(** The comprehension of line 183 raises at the first label without a
    color. *)
Lemma lookup_all_first_missing (mapping : gmap string string)
    (keys : list string) (key : string) :
  key ∈ keys -> mapping !! key = None ->
  exists (j : nat) (missing : string),
    lookup_all mapping keys = inl (KeyError missing) /\
    keys !! j = Some missing /\ mapping !! missing = None /\
    forall (i : nat) (label : string),
      (i < j)%nat -> keys !! i = Some label -> is_Some (mapping !! label).
Proof.
  intros Hin Hnone. induction keys as [|k keys IH].
  - apply elem_of_nil in Hin. contradiction.
  - cbn [lookup_all]. destruct (mapping !! k) as [v|] eqn:Hk.
    + apply elem_of_cons in Hin as [->|Hin]; [congruence|].
      destruct (IH Hin) as (j & missing & -> & Hj & Hn & Hbefore).
      exists (S j), missing. repeat split; try assumption.
      intros [|i] label Hi Hlabel; cbn in Hlabel.
      * injection Hlabel as <-. rewrite Hk. eexists. reflexivity.
      * apply (Hbefore i); [lia | exact Hlabel].
    + exists 0%nat, k. repeat split; try assumption. intros i label Hi. lia.
Qed.

(** C9, as amended.  When a listed stress level has no entry
    "<level> Stress" in [stress_color_mapping] the builder raises instead of
    returning a result.  It does not fail at once: on a frame that has its
    two columns, with distinct levels, the error is the [KeyError] of line
    183 for the first label without a color, raised after lines 155-167
    assigned Work_Hours_Grouped and Stress_Level_Sorted to the frame.  Edge
    colors have no map to miss from: the chain of lines 175-180 gives every
    level other than "Low" and "Medium" the tint of its [else] branch. *)
Theorem C9_missing_node_color_raises (observed : bool) (order : list string)
    (mapping : gmap string string) (df : DataFrame) (level : string) :
  level ∈ order ->
  mapping !! (level +:+ " Stress") = None ->
  (exists e, snd (prepare_sankey_data observed order mapping df) = inl e) /\
  (forall hours xs col,
     df !! "Work_Hours" = Some hours ->
     pd.numeric hours = Some xs ->
     df !! "Stress_Level" = Some col ->
     NoDup order ->
     exists (j : nat) (missing : string),
       prepare_sankey_data observed order mapping df
       = (assigned order xs col df, inl (KeyError missing)) /\
       stress_level_labels order !! j = Some missing /\
       mapping !! missing = None /\
       forall (i : nat) (label : string),
         (i < j)%nat -> stress_level_labels order !! i = Some label ->
         is_Some (mapping !! label)) /\
  (forall stress,
     stress <> Some "Low" -> stress <> Some "Medium" ->
     link_color stress = "rgba(255,76,76,0.5)").
Proof.
  intros Hin Hnone.
  assert (Hlabel : (level +:+ " Stress") ∈ stress_level_labels order).
  { unfold stress_level_labels. apply list_elem_of_In, in_map_iff.
    exists level. split; [reflexivity | apply list_elem_of_In, Hin]. }
  destruct (lookup_all_first_missing mapping _ _ Hlabel Hnone)
    as (j & missing & Hall & Hj & Hn & Hbefore).
  rewrite prepare_sankey_data_outcome. unfold outcome. cbv zeta.
  split; [|split].
  - destruct (df !! "Work_Hours") as [hours|]; [|eexists; reflexivity].
    destruct (pd.numeric hours) as [xs|]; [|eexists; reflexivity].
    destruct (df !! "Stress_Level") as [col|]; [|eexists; reflexivity].
    destruct (pd.Categorical col order) as [e|stress]; [eexists; reflexivity|].
    rewrite Hall. eexists. reflexivity.
  - intros hours xs col -> -> -> Hnodup. unfold pd.Categorical.
    rewrite bool_decide_eq_true_2 by exact Hnodup. cbn [negb].
    rewrite Hall. exists j, missing. repeat split; assumption.
  - intros stress Hlow Hmed. unfold link_color.
    rewrite !bool_decide_eq_false_2 by assumption. reflexivity.
Qed.

Lemma C9_missing_node_color_raises_witness :
  exists e,
    snd (prepare_sankey_data false ["Low"; "Medium"; "High"]
           (<["Low Stress" := "#7ED957"]> (<["High Stress" := "#FF4C4C"]> ∅))
           (worklife [record_of 5 "Low"] ∅))
    = inl e.
Proof.
  apply (C9_missing_node_color_raises false ["Low"; "Medium"; "High"]
           (<["Low Stress" := "#7ED957"]> (<["High Stress" := "#FF4C4C"]> ∅))
           (worklife [record_of 5 "Low"] ∅) "Medium").
  - repeat constructor.
  - vm_compute. reflexivity.
Defined.

(** C9 fails as stated, twice over.  A listed level that none of the
    branches of the edge color chain names, with a node color of its own,
    gives a result: its edges get the tint of the [else] branch.  And a
    level without a node color does not make the call fail at once: the
    [KeyError] comes after the frame got its two columns. *)
Lemma C9_unlisted_edge_color_returns :
  let order := ["Low"; "Medium"; "High"; "Extreme"] in
  let mapping := <["Extreme Stress" := "#800080"]> app_stress_color_mapping in
  let no_medium :=
    <["Low Stress" := "#7ED957"]> (<["High Stress" := "#FF4C4C"]> ∅) in
  let df := worklife [record_of 5 "Low"] ∅ in
  let failed := prepare_sankey_data true app_stress_level_order no_medium df in
  (exists r,
     snd (prepare_sankey_data true order mapping
            (worklife [record_of 5 "Extreme"] ∅)) = inr r /\
     source r = [0] /\ target r = [13] /\ value r = [1] /\
     link_colors r = ["rgba(255,76,76,0.5)"] /\
     link_colors r = [link_color (Some "High")]) /\
  snd failed = inl (KeyError "Medium Stress") /\
  df !! "Work_Hours_Grouped" = None /\
  df !! "Stress_Level_Sorted" = None /\
  fst failed !! "Work_Hours_Grouped"
  = Some (Category (mkCategorical bin_labels [0] true)) /\
  fst failed !! "Stress_Level_Sorted"
  = Some (Category (mkCategorical app_stress_level_order [0] true)).
Proof.
  cbv zeta. split.
  - eexists. split; [vm_compute; reflexivity|]. repeat split; reflexivity.
  - repeat split; vm_compute; reflexivity.
Qed.

(** ** The sample of the violin plot *)

Section SampleProperties.

Context {Row : Type}.
Variable permutation : Z -> nat -> list nat.
Hypothesis permutation_spec : forall seed n, permutation seed n ≡ₚ seq 0 n.

Lemma permutation_NoDup (seed : Z) (n k : nat) :
  NoDup (take k (permutation seed n)).
Proof.
  assert (H : NoDup (permutation seed n)).
  { rewrite (permutation_spec seed n). apply NoDup_seq. }
  rewrite <- (take_drop k (permutation seed n)) in H.
  apply NoDup_app in H as [H _]. exact H.
Qed.

Lemma permutation_bound (seed : Z) (n k i : nat) :
  i ∈ take k (permutation seed n) -> (i < n)%nat.
Proof.
  intros Hi. apply (subseteq_take k) in Hi.
  rewrite (permutation_spec seed n) in Hi. apply elem_of_seq in Hi. lia.
Qed.

(** C10.  The sample is refused with an error on every frame of fewer than
    3500 rows; on any other frame it has exactly 3500 rows, taken at 3500
    distinct positions of the frame. *)
Theorem C10_sample_size (health_df : list Row) :
  ((length health_df < 3500)%nat ->
   sampled_health_df permutation health_df = inl ValueError) /\
  ((3500 <= length health_df)%nat ->
   exists indices rows,
     sampled_health_df permutation health_df = inr rows /\
     length rows = 3500%nat /\
     NoDup indices /\
     Forall2 (fun i row => health_df !! i = Some row) indices rows).
Proof.
  unfold sampled_health_df, sample. split; intros Hlen.
  - apply Nat.ltb_lt in Hlen. rewrite Hlen. reflexivity.
  - replace (length health_df <? 3500)%nat with false
      by (symmetry; apply Nat.ltb_ge; exact Hlen).
    set (indices := take 3500 (permutation 42 (length health_df))).
    assert (Hsome : is_Some (mapM (fun i => health_df !! i) indices)).
    { apply mapM_is_Some, List.Forall_forall. intros i Hi.
      apply list_elem_of_In, permutation_bound in Hi.
      apply lookup_lt_is_Some_2. exact Hi. }
    destruct Hsome as [rows Hrows]. exists indices, rows.
    unfold take_rows. rewrite Hrows. apply mapM_Some in Hrows.
    repeat split.
    + rewrite <- (Forall2_length _ _ _ Hrows). subst indices.
      apply length_take_le.
      rewrite (Permutation_length (permutation_spec 42 _)), length_seq.
      exact Hlen.
    + apply permutation_NoDup.
    + exact Hrows.
Qed.

End SampleProperties.

Lemma C10_sample_size_witness :
  sampled_health_df (fun _ n => seq 0 n) [1; 2; 3]%nat = inl ValueError /\
  exists indices rows,
    sampled_health_df (fun _ n => seq 0 n) (seq 0 3600) = inr rows /\
    length rows = 3500%nat /\
    NoDup indices /\
    Forall2 (fun i row => seq 0 3600 !! i = Some row) indices rows.
Proof.
  split.
  - apply (C10_sample_size (fun _ n => seq 0 n) (fun _ _ => reflexivity _)
             [1; 2; 3]%nat).
    cbn. lia.
  - apply (C10_sample_size (fun _ n => seq 0 n) (fun _ _ => reflexivity _)
             (seq 0 3600)).
    rewrite length_seq. lia.
Defined.

(** * Further properties of the builder *)

Lemma combine_map_same {A B C} (f : A -> B) (g : A -> C) (l : list A) :
  combine (map f l) (map g l) = map (fun a => (f a, g a)) l.
Proof. induction l as [|a l IH]; [reflexivity|]. cbn [map combine]. rewrite IH. reflexivity. Qed.

Lemma groups_of_keys (records : list (float64 * option string)) (g : Z * Z * Z) :
  In g (groups_of records) ->
  (0 <= fst (fst g) < 10 /\ 0 <= snd (fst g) < 3) /\
  snd g = groupby.group_size
            (map (record_codes app_stress_level_order) records) (fst g).
Proof.
  unfold groups_of. intros Hin. apply in_map_iff in Hin as (key & <- & Hkey).
  apply In_product in Hkey. cbn [fst snd]. cbn in Hkey. split; [lia | reflexivity].
Qed.

Lemma kept_groups_keys (observed : bool)
    (records : list (float64 * option string)) (g : Z * Z * Z) :
  In g (kept_groups observed records) -> In g (groups_of records).
Proof.
  unfold kept_groups. destruct observed; [|tauto].
  intros Hin. apply filter_In in Hin. tauto.
Qed.

(** The arrays of a result, read off the groups that are kept. *)
Lemma data_grouped_arrays (observed : bool)
    (records : list (float64 * option string)) (others : DataFrame) :
  exists r,
    snd (data_grouped observed (worklife records others)) = inr r /\
    source r = map (fun g => fst (fst g)) (kept_groups observed records) /\
    target r = map (fun g => snd (fst g) + 10) (kept_groups observed records) /\
    value r = map snd (kept_groups observed records) /\
    link_colors r
    = map (fun g => link_color (pd.take app_stress_level_order (snd (fst g))))
          (kept_groups observed records).
Proof.
  rewrite data_grouped_worklife. eexists. split; [reflexivity|].
  unfold sankey, groupby.size, codes_add, cat_codes.
  cbn [source target value link_colors key_source key_target count codes
       categories grouped_hours sorted_stress pd.values].
  rewrite combine_record_codes. fold (groups_of records).
  fold (kept_groups observed records).
  repeat split; try reflexivity.
  - rewrite map_map. apply List.map_ext_in. intros g Hg.
    apply kept_groups_keys, groups_of_keys in Hg as [[_ Hj] _].
    replace (codes_bits _) with 8 by reflexivity.
    apply wrap_small. cbn. lia.
  - rewrite map_map. reflexivity.
Qed.

Lemma edge_list_arrays (observed : bool)
    (records : list (float64 * option string)) (others : DataFrame) :
  exists r,
    snd (data_grouped observed (worklife records others)) = inr r /\
    edge_list r
    = map (fun g => (fst (fst g), snd (fst g) + 10, snd g))
          (kept_groups observed records).
Proof.
  destruct (data_grouped_arrays observed records others)
    as (r & Hr & Hs & Ht & Hv & _).
  exists r. split; [exact Hr|].
  unfold edge_list. rewrite Hs, Ht, Hv, !combine_map_same. reflexivity.
Qed.

Lemma group_size_records (records : list (float64 * option string)) (i j : Z) :
  groupby.group_size (map (record_codes app_stress_level_order) records) (i, j)
  = Z.of_nat (length (edge_records records i (j + 10))).
Proof.
  unfold groupby.group_size, edge_records. rewrite filter_map_length.
  do 2 f_equal. apply List.filter_ext. intros record.
  unfold groupby.in_group, record_codes. cbn [fst snd length bin_labels].
  replace (j + 10 - Z.of_nat 10) with j by lia. reflexivity.
Qed.

(** X1.  The weight of every emitted edge is the number of records whose
    bucket is the source node and whose stress level is the target node. *)
Theorem edge_weight_is_record_count (observed : bool)
    (records : list (float64 * option string)) (others : DataFrame) :
  exists r,
    snd (data_grouped observed (worklife records others)) = inr r /\
    Forall (fun e => snd e
                     = Z.of_nat (length (edge_records records (fst (fst e))
                                                      (snd (fst e)))))
           (edge_list r).
Proof.
  destruct (edge_list_arrays observed records others) as (r & Hr & Hedges).
  exists r. split; [exact Hr|]. rewrite Hedges.
  apply List.Forall_map, List.Forall_forall. intros [[i j] w] Hg.
  apply kept_groups_keys, groups_of_keys in Hg as [_ Hw].
  cbn [fst snd] in *. rewrite Hw. apply group_size_records.
Qed.

(** X2.  Every record whose hours lie in a bucket and whose stress level is
    listed lies on an emitted edge, the one from its bucket to its level, and
    that edge has weight at least 1. *)
Theorem valid_record_is_on_an_edge (observed : bool)
    (records : list (float64 * option string)) (others : DataFrame)
    (record : float64 * option string) :
  In record records ->
  bucketed (fst record) = true ->
  listed app_stress_level_order (snd record) = true ->
  exists r w,
    snd (data_grouped observed (worklife records others)) = inr r /\
    In (pd.cut_code bins (fst record),
        pd.code_of app_stress_level_order (snd record) + 10, w) (edge_list r) /\
    1 <= w /\
    In record (edge_records records (pd.cut_code bins (fst record))
                 (pd.code_of app_stress_level_order (snd record) + 10)).
Proof.
  intros Hin Hb Hl.
  destruct (edge_list_arrays observed records others) as (r & Hr & Hedges).
  set (i := pd.cut_code bins (fst record)).
  set (j := pd.code_of app_stress_level_order (snd record)).
  assert (Hon : In record (edge_records records i (j + 10))).
  { unfold edge_records. apply filter_In. split; [exact Hin|].
    cbn [length bin_labels]. replace (j + 10 - Z.of_nat 10) with j by lia.
    subst i j. rewrite !Z.eqb_refl. reflexivity. }
  set (w := groupby.group_size
              (map (record_codes app_stress_level_order) records) (i, j)).
  assert (Hw : 1 <= w).
  { subst w. rewrite group_size_records.
    destruct (edge_records records i (j + 10)); [contradiction|]. cbn. lia. }
  exists r, w. split; [exact Hr|]. split; [|split; [exact Hw | exact Hon]].
  rewrite Hedges. apply in_map_iff. exists (i, j, w). split; [reflexivity|].
  assert (Hg : In (i, j, w) (groups_of records)).
  { unfold groups_of. apply in_map_iff. exists (i, j). split; [reflexivity|].
    apply In_product. cbn [fst snd].
    rewrite <- is_code_cut_code in Hb. rewrite <- is_code_code_of in Hl.
    unfold is_code in Hb, Hl. fold i in Hb. fold j in Hl. lia. }
  unfold kept_groups. destruct observed; [|exact Hg].
  apply filter_In. split; [exact Hg|]. cbn [snd]. apply Z.ltb_lt. lia.
Qed.

Lemma valid_record_is_on_an_edge_witness :
  exists r w,
    snd (data_grouped true
           (worklife [record_of 5 "Low"; record_of 15 "High"] ∅)) = inr r /\
    In (pd.cut_code bins (fst (record_of 15 "High")),
        pd.code_of app_stress_level_order (snd (record_of 15 "High")) + 10, w)
       (edge_list r) /\
    1 <= w /\
    In (record_of 15 "High")
       (edge_records [record_of 5 "Low"; record_of 15 "High"]
          (pd.cut_code bins (fst (record_of 15 "High")))
          (pd.code_of app_stress_level_order (snd (record_of 15 "High")) + 10)).
Proof.
  apply (valid_record_is_on_an_edge true
           [record_of 5 "Low"; record_of 15 "High"] ∅ (record_of 15 "High")).
  - right. left. reflexivity.
  - reflexivity.
  - vm_compute. reflexivity.
Defined.

(** ** Order of the edges *)

Lemma StronglySorted_filter {A} (R : A -> A -> Prop) (p : A -> bool) (l : list A) :
  StronglySorted R l -> StronglySorted R (List.filter p l).
Proof.
  induction 1 as [|a l Hl IH Ha]; cbn [List.filter]; [constructor|].
  destruct (p a); [|exact IH]. constructor; [exact IH|].
  apply List.Forall_forall. intros x Hx. apply filter_In in Hx as [Hx _].
  rewrite List.Forall_forall in Ha. auto.
Qed.

Lemma StronglySorted_map {A B} (R1 : A -> A -> Prop) (R2 : B -> B -> Prop)
    (f : A -> B) (l : list A) :
  (forall x y, R1 x y -> R2 (f x) (f y)) ->
  StronglySorted R1 l -> StronglySorted R2 (map f l).
Proof. intros Hf Hl. apply (StronglySorted_fmap f R1 R2 l Hf Hl). Qed.

Lemma StronglySorted_irrefl_NoDup {A} (R : A -> A -> Prop) (l : list A) :
  (forall x, ~ R x x) -> StronglySorted R l -> NoDup l.
Proof.
  intros Hirr. induction 1 as [|a l Hl IH Ha]; constructor; [|exact IH].
  intros Hin. rewrite List.Forall_forall in Ha.
  apply list_elem_of_In in Hin. exact (Hirr a (Ha a Hin)).
Qed.

Lemma range_sorted (n : nat) : StronglySorted Z.lt (groupby.range n).
Proof.
  induction n as [|n IH]; [constructor|].
  rewrite range_S. apply StronglySorted_app_2; [|exact IH|repeat constructor].
  intros x1 x2 H1 H2. apply list_elem_of_In, In_range in H1.
  apply list_elem_of_singleton in H2. lia.
Qed.

Lemma product_sorted (na nb : nat) :
  StronglySorted edge_lt (groupby.product na nb).
Proof.
  unfold groupby.product.
  induction (range_sorted na) as [|i l Hl IH Hi]; cbn [flat_map]; [constructor|].
  apply StronglySorted_app_2; [| |exact IH].
  - intros x1 x2 H1 H2.
    apply list_elem_of_In, in_map_iff in H1 as (j & <- & _).
    apply list_elem_of_In, in_flat_map in H2 as (i' & Hi' & H2).
    apply in_map_iff in H2 as (j' & <- & _).
    rewrite List.Forall_forall in Hi. left. cbn [fst]. auto.
  - apply (StronglySorted_map Z.lt); [|apply range_sorted].
    intros x y Hxy. right. cbn [fst snd]. split; [reflexivity | exact Hxy].
Qed.

Lemma kept_groups_sorted (observed : bool)
    (records : list (float64 * option string)) :
  StronglySorted (fun g h => edge_lt (fst g) (fst h))
                 (kept_groups observed records).
Proof.
  assert (H : StronglySorted (fun g h : Z * Z * Z => edge_lt (fst g) (fst h))
                             (groups_of records)).
  { unfold groups_of. apply (StronglySorted_map edge_lt); [|apply product_sorted].
    intros x y Hxy. exact Hxy. }
  unfold kept_groups. destruct observed; [|exact H].
  apply StronglySorted_filter, H.
Qed.

(** X3.  The edges come sorted by source node and then by target node, so no
    (source, target) pair is emitted twice. *)
Theorem edges_sorted_without_duplicates (observed : bool)
    (records : list (float64 * option string)) (others : DataFrame) :
  exists r,
    snd (data_grouped observed (worklife records others)) = inr r /\
    StronglySorted edge_lt (combine (source r) (target r)) /\
    NoDup (combine (source r) (target r)).
Proof.
  destruct (data_grouped_arrays observed records others)
    as (r & Hr & Hs & Ht & _).
  exists r. split; [exact Hr|].
  assert (H : StronglySorted edge_lt (combine (source r) (target r))).
  { rewrite Hs, Ht, combine_map_same.
    apply (StronglySorted_map (fun g h : Z * Z * Z => edge_lt (fst g) (fst h)));
      [|apply kept_groups_sorted].
    intros g h. unfold edge_lt. cbn [fst snd]. lia. }
  split; [exact H|].
  apply (StronglySorted_irrefl_NoDup edge_lt); [|exact H].
  intros x. unfold edge_lt. lia.
Qed.

Lemma link_color_of_code (j : Z) :
  0 <= j < 3 ->
  link_color (pd.take app_stress_level_order j) = target_color (j + 10).
Proof.
  intros Hj. assert (j = 0 \/ j = 1 \/ j = 2) as [->|[->| ->]] by lia;
    vm_compute; reflexivity.
Qed.

(** X4.  The color of every edge is the tint of its target node: green into
    node 10 (Low), amber into node 11 (Medium), red into node 12 (High). *)
Theorem link_color_by_target (observed : bool)
    (records : list (float64 * option string)) (others : DataFrame) :
  exists r,
    snd (data_grouped observed (worklife records others)) = inr r /\
    link_colors r = map target_color (target r).
Proof.
  destruct (data_grouped_arrays observed records others)
    as (r & Hr & _ & Ht & _ & Hc).
  exists r. split; [exact Hr|]. rewrite Hc, Ht, map_map.
  apply List.map_ext_in. intros g Hg.
  apply kept_groups_keys, groups_of_keys in Hg as [[_ Hj] _].
  apply link_color_of_code, Hj.
Qed.

(** ** Records in another order, and no usable record *)

Lemma group_size_Permutation (rows rows' : list (Z * Z)) (key : Z * Z) :
  rows ≡ₚ rows' -> groupby.group_size rows key = groupby.group_size rows' key.
Proof.
  unfold groupby.group_size. intros H. f_equal.
  induction H as [|x l l' H IH|x y l|l l' l'' H1 IH1 H2 IH2];
    cbn [List.filter]; [reflexivity| | |congruence].
  - destruct (groupby.in_group key x); cbn [length]; congruence.
  - destruct (groupby.in_group key x), (groupby.in_group key y); reflexivity.
Qed.

Lemma sankey_rows (observed : bool) (order colors : list string)
    (a b a' b' : Categorical) :
  categories a = categories a' -> categories b = categories b' ->
  ordered a = ordered a' -> ordered b = ordered b' ->
  combine (codes a) (codes b) ≡ₚ combine (codes a') (codes b') ->
  sankey observed order colors a b = sankey observed order colors a' b'.
Proof.
  intros Ha Hb Hoa Hob Hrows. unfold sankey.
  replace (groupby.size observed a' b') with (groupby.size observed a b);
    [reflexivity|].
  unfold groupby.size. rewrite Ha, Hb, Hoa, Hob.
  replace (map (fun key => (key, groupby.group_size (combine (codes a') (codes b')) key))
               (groupby.product (length (categories a')) (length (categories b'))))
    with (map (fun key => (key, groupby.group_size (combine (codes a) (codes b)) key))
              (groupby.product (length (categories a')) (length (categories b'))));
    [reflexivity|].
  apply List.map_ext. intros key. f_equal.
  apply group_size_Permutation, Hrows.
Qed.

(** X5.  The result does not depend on the order of the records (nor on the
    other columns of the frame): two record sets that are permutations of
    each other give the same labels, colors and edge arrays. *)
Theorem record_order_is_irrelevant (observed : bool)
    (records records' : list (float64 * option string))
    (others others' : DataFrame) :
  records ≡ₚ records' ->
  snd (data_grouped observed (worklife records others))
  = snd (data_grouped observed (worklife records' others')).
Proof.
  intros Hperm. rewrite !data_grouped_worklife. cbn [snd]. f_equal.
  apply sankey_rows; try reflexivity.
  cbn [grouped_hours sorted_stress codes pd.values].
  rewrite !combine_record_codes. apply Permutation_map, Hperm.
Qed.

Lemma record_order_is_irrelevant_witness :
  snd (data_grouped false
         (worklife [record_of 5 "Low"; record_of 15 "High"] ∅))
  = snd (data_grouped false
           (worklife [record_of 15 "High"; record_of 5 "Low"]
              (<["Age" := Float64 [Fin (inject_Z 30); Fin (inject_Z 41)]]> ∅))).
Proof.
  apply (record_order_is_irrelevant false
           [record_of 5 "Low"; record_of 15 "High"]
           [record_of 15 "High"; record_of 5 "Low"]).
  apply perm_swap.
Defined.

Lemma sum_positive_nil (l : list Z) :
  Forall (fun w => 0 < w) l -> sum l = 0 -> l = [].
Proof.
  intros Hpos Hsum. destruct l as [|w l]; [reflexivity|].
  assert (Hnn : forall l', Forall (fun w => 0 < w) l' -> 0 <= sum l').
  { induction 1; cbn [sum]; lia. }
  inversion Hpos as [|? ? Hw Hl]. subst. apply Hnn in Hl. cbn [sum] in Hsum. lia.
Qed.

Lemma filter_none {A} (p : A -> bool) (l : list A) :
  Forall (fun a => p a = false) l -> List.filter p l = [].
Proof.
  induction 1 as [|a l Ha Hl IH]; [reflexivity|].
  cbn [List.filter]. rewrite Ha. exact IH.
Qed.

Lemma observed_weights (records : list (float64 * option string))
    (others : DataFrame) :
  exists r,
    snd (data_grouped true (worklife records others)) = inr r /\
    sum (value r)
    = Z.of_nat (length (List.filter
        (fun record => bucketed (fst record)
                       && listed app_stress_level_order (snd record))
        records)) /\
    Forall (fun w => 0 < w) (value r).
Proof.
  rewrite data_grouped_worklife. eexists. split; [reflexivity|].
  unfold sankey. cbn [value]. split; [|apply size_count_pos; reflexivity].
  rewrite size_count_sum.
  cbn [grouped_hours sorted_stress codes categories pd.values].
  rewrite combine_record_codes, filter_map_length. do 2 f_equal.
  apply List.filter_ext. intros record.
  unfold grouped_row, record_codes. cbn [fst snd].
  rewrite is_code_cut_code, is_code_code_of. reflexivity.
Qed.

(** X6.  With [observed=True] the builder emits no edge at all exactly when
    no record has both its hours in a bucket and a listed stress level (an
    empty record set included); the 13 nodes are emitted all the same. *)
Theorem no_edges_iff_no_usable_record
    (records : list (float64 * option string)) (others : DataFrame) :
  exists r,
    snd (data_grouped true (worklife records others)) = inr r /\
    length (labels r) = 13%nat /\
    (edge_list r = [] <->
     Forall (fun record =>
               bucketed (fst record)
               && listed app_stress_level_order (snd record) = false)
            records).
Proof.
  destruct (observed_weights records others) as (r & Hr & Hsum & Hpos).
  destruct (edge_list_arrays true records others) as (r' & Hr' & Hedges).
  assert (r' = r) as -> by congruence.
  destruct (data_grouped_arrays true records others) as (r' & Hr'' & _ & _ & Hv & _).
  assert (r' = r) as -> by congruence.
  exists r. split; [exact Hr|]. split.
  { rewrite data_grouped_worklife in Hr. cbn [snd] in Hr.
    injection Hr as <-. reflexivity. }
  rewrite Hedges. split.
  - intros Hnil. apply map_eq_nil in Hnil. rewrite Hnil in Hv. cbn [map] in Hv.
    rewrite Hv in Hsum. cbn [sum] in Hsum.
    apply List.Forall_forall. intros record Hin.
    destruct (bucketed (fst record) && listed app_stress_level_order (snd record))
      eqn:E; [|reflexivity].
    assert (In record (List.filter
              (fun record => bucketed (fst record)
                             && listed app_stress_level_order (snd record))
              records)) as Hf by (apply filter_In; auto).
    destruct (List.filter _ records); [contradiction|]. cbn in Hsum. lia.
  - intros Hnone.
    assert (Hf : List.filter
              (fun record => bucketed (fst record)
                             && listed app_stress_level_order (snd record))
              records = []).
    { apply filter_none, Hnone. }
    rewrite Hf in Hsum. cbn in Hsum.
    apply (sum_positive_nil _ Hpos) in Hsum. rewrite Hv in Hsum.
    apply map_eq_nil in Hsum. rewrite Hsum. reflexivity.
Qed.

(** ** Buckets *)

(** X7.  A finite number of hours gets bucket [i] exactly when it lies in
    (10 i, 10 (i + 1)], and no bucket exactly when it is at most 0 or above
    100; fractional hours are binned like any other (10.5 is in "11-20"). *)
Theorem bucket_of_hours (q : Q) (i : Z) :
  pd.cut_code bins (Fin q) = i <->
  (i = -1 /\ (q <= 0 \/ 100 < q)%Q) \/
  (0 <= i <= 9 /\ (inject_Z (10 * i) < q /\ q <= inject_Z (10 * (i + 1)))%Q).
Proof.
  unfold Qlt, Qle. cbn [inject_Z Qnum Qden]. rewrite !Z.mul_1_r.
  change (Qnum 0%Q) with 0. change (Qnum 100%Q) with 100.
  change (QDen 0%Q) with 1. change (QDen 100%Q) with 1.
  rewrite ?Z.mul_1_r, ?Z.mul_0_l.
  pose proof (cut_code_Fin q) as H. cbv zeta in H.
  assert (Hd : 0 < Z.pos (Qden q)) by lia.
  revert H Hd. generalize (Z.pos (Qden q)) (Qnum q) (pd.cut_code bins (Fin q)).
  intros d n c H Hd. split.
  - intros <-. destruct H as [[-> H]|(j & -> & Hj & Hq)]; [left|right]; lia.
  - intros [[-> Hout]|[Hi Hin]];
      destruct H as [[-> H]|(j & -> & Hj & Hq)]; try reflexivity; nia.
Qed.

(** X8.  Among the records that get a bucket, more hours never means an
    earlier bucket. *)
Theorem buckets_follow_hours (q1 q2 : Q) :
  (q1 <= q2)%Q ->
  bucketed (Fin q1) = true ->
  bucketed (Fin q2) = true ->
  pd.cut_code bins (Fin q1) <= pd.cut_code bins (Fin q2).
Proof.
  intros Hle H1 H2. rewrite bucketed_cut_code in H1, H2.
  apply Z.leb_le in H1, H2. unfold Qle in Hle.
  destruct (cut_code_Fin q1) as [[E1 _]|(i1 & E1 & _ & Hq1)]; [lia|].
  destruct (cut_code_Fin q2) as [[E2 _]|(i2 & E2 & _ & Hq2)]; [lia|].
  rewrite E1, E2. cbv zeta in Hq1, Hq2.
  assert (Hd1 : 0 < Z.pos (Qden q1)) by lia.
  assert (Hd2 : 0 < Z.pos (Qden q2)) by lia.
  revert Hle Hq1 Hq2 Hd1 Hd2.
  generalize (Z.pos (Qden q1)) (Z.pos (Qden q2)) (Qnum q1) (Qnum q2).
  intros d1 d2 n1 n2 Hle Hq1 Hq2 Hd1 Hd2.
  destruct (Z.le_gt_cases i1 i2) as [|Hgt]; [assumption|exfalso].
  assert (10 * (i2 + 1) * d2 * d1 <= 10 * i1 * d1 * d2) by nia.
  assert (n2 * d1 <= 10 * (i2 + 1) * d2 * d1) by nia.
  assert (10 * i1 * d1 * d2 < n1 * d2) by nia.
  lia.
Qed.

Lemma buckets_follow_hours_witness :
  pd.cut_code bins (Fin (21 # 2)) <= pd.cut_code bins (Fin (inject_Z 35)).
Proof.
  apply (buckets_follow_hours (21 # 2) (inject_Z 35)).
  - vm_compute. discriminate.
  - reflexivity.
  - reflexivity.
Defined.

(** ** What a call reads, and how it fails *)

(** X9.  What a call returns or raises is determined by the columns
    Work_Hours and Stress_Level alone: the other columns of the frame, a
    stale Work_Hours_Grouped or Stress_Level_Sorted included, are never
    read. *)
Theorem result_reads_two_columns (observed : bool) (order : list string)
    (mapping : gmap string string) (df df' : DataFrame) :
  df !! "Work_Hours" = df' !! "Work_Hours" ->
  df !! "Stress_Level" = df' !! "Stress_Level" ->
  snd (prepare_sankey_data observed order mapping df)
  = snd (prepare_sankey_data observed order mapping df').
Proof.
  intros Hwh Hsl. rewrite !prepare_sankey_data_outcome. unfold outcome.
  rewrite <- Hwh, <- Hsl.
  destruct (df !! "Work_Hours") as [hours|]; [|reflexivity].
  destruct (pd.numeric hours) as [xs|]; [|reflexivity].
  destruct (df !! "Stress_Level") as [col|]; [|reflexivity].
  destruct (pd.Categorical col order) as [e|stress]; [reflexivity|].
  destruct (lookup_all mapping (stress_level_labels order)); reflexivity.
Qed.

Lemma result_reads_two_columns_witness :
  snd (prepare_sankey_data true app_stress_level_order app_stress_color_mapping
         (worklife [record_of 5 "Low"] ∅))
  = snd (prepare_sankey_data true app_stress_level_order app_stress_color_mapping
           (worklife [record_of 5 "Low"]
              (<["Work_Hours_Grouped" := Object [Some "91-100"]]> ∅))).
Proof.
  apply (result_reads_two_columns true app_stress_level_order
           app_stress_color_mapping); reflexivity.
Defined.

(** X10.  Without a Work_Hours column the call raises
    [KeyError('Work_Hours')] and leaves the frame untouched. *)
Theorem missing_work_hours_column (observed : bool) (order : list string)
    (mapping : gmap string string) (df : DataFrame) :
  df !! "Work_Hours" = None ->
  prepare_sankey_data observed order mapping df
  = (df, inl (KeyError "Work_Hours")).
Proof.
  intros Hwh. rewrite prepare_sankey_data_outcome. unfold outcome.
  rewrite Hwh. reflexivity.
Qed.

Lemma missing_work_hours_column_witness :
  prepare_sankey_data true app_stress_level_order app_stress_color_mapping
    (<["Stress_Level" := Object [Some "Low"]]> ∅)
  = (<["Stress_Level" := Object [Some "Low"]]> ∅, inl (KeyError "Work_Hours")).
Proof.
  apply (missing_work_hours_column true app_stress_level_order
           app_stress_color_mapping (<["Stress_Level" := Object [Some "Low"]]> ∅)).
  reflexivity.
Defined.

(** X11.  Without a Stress_Level column the call raises
    [KeyError('Stress_Level')] only after line 155 ran: the failed call
    leaves the frame with the column Work_Hours_Grouped assigned, and no
    Stress_Level_Sorted. *)
Theorem missing_stress_level_column (observed : bool) (order : list string)
    (mapping : gmap string string) (df : DataFrame) (xs : list float64) :
  df !! "Work_Hours" = Some (Float64 xs) ->
  df !! "Stress_Level" = None ->
  prepare_sankey_data observed order mapping df
  = (<["Work_Hours_Grouped" := Category (grouped_hours xs)]> df,
     inl (KeyError "Stress_Level")).
Proof.
  intros Hwh Hsl. rewrite prepare_sankey_data_outcome. unfold outcome.
  rewrite Hwh, Hsl. reflexivity.
Qed.

Lemma missing_stress_level_column_witness :
  prepare_sankey_data true app_stress_level_order app_stress_color_mapping
    (<["Work_Hours" := Float64 [Fin (inject_Z 5)]]> ∅)
  = (<["Work_Hours_Grouped" := Category (grouped_hours [Fin (inject_Z 5)])]>
       (<["Work_Hours" := Float64 [Fin (inject_Z 5)]]> ∅),
     inl (KeyError "Stress_Level")).
Proof.
  apply (missing_stress_level_column true app_stress_level_order
           app_stress_color_mapping
           (<["Work_Hours" := Float64 [Fin (inject_Z 5)]]> ∅)
           [Fin (inject_Z 5)]); reflexivity.
Defined.

(** X12.  A stress level listed twice is refused: the call raises
    [ValueError] at line 167, with Work_Hours_Grouped already assigned. *)
Theorem duplicate_level_is_refused (observed : bool) (order : list string)
    (mapping : gmap string string) (df : DataFrame) (xs : list float64)
    (col : Series) :
  df !! "Work_Hours" = Some (Float64 xs) ->
  df !! "Stress_Level" = Some col ->
  ~ NoDup order ->
  prepare_sankey_data observed order mapping df
  = (<["Work_Hours_Grouped" := Category (grouped_hours xs)]> df,
     inl ValueError).
Proof.
  intros Hwh Hsl Hdup. rewrite prepare_sankey_data_outcome. unfold outcome.
  rewrite Hwh, Hsl. unfold pd.Categorical.
  rewrite bool_decide_eq_false_2 by exact Hdup. reflexivity.
Qed.

Lemma duplicate_level_is_refused_witness :
  prepare_sankey_data true ["Low"; "High"; "Low"] app_stress_color_mapping
    (worklife [record_of 5 "Low"] ∅)
  = (<["Work_Hours_Grouped" := Category (grouped_hours [Fin (inject_Z 5)])]>
       (worklife [record_of 5 "Low"] ∅),
     inl ValueError).
Proof.
  apply (duplicate_level_is_refused true ["Low"; "High"; "Low"]
           app_stress_color_mapping (worklife [record_of 5 "Low"] ∅)
           [Fin (inject_Z 5)] (Object [Some "Low"])).
  - reflexivity.
  - reflexivity.
  - apply (bool_decide_eq_false_1 (NoDup ["Low"; "High"; "Low"])).
    vm_compute. reflexivity.
Defined.

(** ** Other stress levels, and record sets put together *)

Lemma lookup_all_present (mapping : gmap string string) (keys : list string) :
  (forall key, key ∈ keys -> is_Some (mapping !! key)) ->
  exists colors, lookup_all mapping keys = inr colors /\
                 length colors = length keys.
Proof.
  induction keys as [|k keys IH]; intros Hall.
  - exists []. split; reflexivity.
  - destruct (Hall k (list_elem_of_here _ _)) as [v Hv].
    destruct IH as (colors & Hc & Hlen).
    { intros key Hkey. apply Hall, list_elem_of_further, Hkey. }
    exists (v :: colors). cbn [lookup_all length]. rewrite Hv, Hc, Hlen.
    split; reflexivity.
Qed.

(** X13.  With any list of at most 117 distinct stress levels, each with a
    node color, the call returns: there is one node per bucket and per
    level, source indices address the bucket nodes and target indices the
    level nodes (the codes are 8-bit integers, and adding 10 to at most 116
    does not wrap around). *)
Theorem index_ranges_for_any_levels (observed : bool) (order : list string)
    (mapping : gmap string string)
    (records : list (float64 * option string)) (others : DataFrame) :
  NoDup order ->
  (length order <= 117)%nat ->
  (forall level, level ∈ order -> is_Some (mapping !! (level +:+ " Stress"))) ->
  exists r,
    snd (prepare_sankey_data observed order mapping (worklife records others))
    = inr r /\
    length (labels r) = (10 + length order)%nat /\
    length (node_colors r) = length (labels r) /\
    Forall (fun s => 0 <= s < 10) (source r) /\
    Forall (fun t => 10 <= t < Z.of_nat (length (labels r))) (target r).
Proof.
  intros Hnodup Hlen Hcolors.
  destruct (lookup_all_present mapping (stress_level_labels order))
    as (colors & Hall & Hclen).
  { intros key Hkey. unfold stress_level_labels in Hkey.
    apply list_elem_of_In, in_map_iff in Hkey as (level & <- & Hlevel).
    apply Hcolors, list_elem_of_In, Hlevel. }
  rewrite prepare_sankey_data_outcome. unfold outcome, worklife.
  rewrite lookup_insert_eq.
  rewrite lookup_insert_ne by discriminate. rewrite lookup_insert_eq.
  unfold pd.Categorical. rewrite bool_decide_eq_true_2 by exact Hnodup.
  cbn [negb]. rewrite Hall. cbn [snd]. eexists. split; [reflexivity|].
  set (hours := grouped_hours (map fst records)).
  set (stress := mkCategorical order _ true).
  cbn [sankey labels node_colors source target].
  assert (Hl : length (map (fun label => label +:+ " Hours") bin_labels
                         ++ stress_level_labels order)
               = (10 + length order)%nat).
  { rewrite length_app. unfold stress_level_labels. rewrite !length_map.
    reflexivity. }
  rewrite Hl. repeat split.
  - rewrite length_app, repeat_length, Hclen. unfold stress_level_labels.
    rewrite !length_map. reflexivity.
  - apply (size_source_codes observed hours stress).
  - unfold codes_add, cat_codes. apply List.Forall_map.
    eapply List.Forall_impl; [|apply (size_target_codes observed hours stress)].
    intros c Hc. cbn [stress categories groupby.size key_target] in *.
    unfold codes_bits.
    replace (Z.of_nat (length order) <? 127) with true
      by (symmetry; apply Z.ltb_lt; lia).
    rewrite wrap_small; cbn [length bin_labels]; lia.
Qed.

Lemma index_ranges_for_any_levels_witness :
  exists r,
    snd (prepare_sankey_data true ["Low"; "Medium"; "High"; "Extreme"]
           (<["Extreme Stress" := "#800080"]> app_stress_color_mapping)
           (worklife [record_of 5 "Extreme"] ∅))
    = inr r /\
    length (labels r) = (10 + length ["Low"; "Medium"; "High"; "Extreme"])%nat /\
    length (node_colors r) = length (labels r) /\
    Forall (fun s => 0 <= s < 10) (source r) /\
    Forall (fun t => 10 <= t < Z.of_nat (length (labels r))) (target r).
Proof.
  apply (index_ranges_for_any_levels true ["Low"; "Medium"; "High"; "Extreme"]
           (<["Extreme Stress" := "#800080"]> app_stress_color_mapping)
           [record_of 5 "Extreme"] ∅).
  - apply (bool_decide_eq_true_1 (NoDup ["Low"; "Medium"; "High"; "Extreme"])).
    vm_compute. reflexivity.
  - cbn. lia.
  - intros level Hlevel.
    repeat (apply elem_of_cons in Hlevel as [->|Hlevel];
            [vm_compute; eexists; reflexivity|]).
    apply elem_of_nil in Hlevel. contradiction.
Defined.

Lemma group_size_app (rows rows' : list (Z * Z)) (key : Z * Z) :
  groupby.group_size (rows ++ rows') key
  = groupby.group_size rows key + groupby.group_size rows' key.
Proof.
  unfold groupby.group_size. rewrite List.filter_app, length_app. lia.
Qed.

Lemma zip_with_map_same {A} (f g : A -> Z) (l : list A) :
  zip_with Z.add (map f l) (map g l) = map (fun a => f a + g a) l.
Proof.
  induction l as [|a l IH]; [reflexivity|].
  cbn [map zip_with]. rewrite IH. reflexivity.
Qed.

(** X14.  With [observed=False] the edges are the same 30 pairs for every
    record set, and the weights of two record sets put together are the sums
    of their weights, edge by edge. *)
Theorem weights_of_joined_record_sets
    (records records' : list (float64 * option string))
    (others : DataFrame) :
  exists r r1 r2,
    snd (data_grouped false (worklife (records ++ records') others)) = inr r /\
    snd (data_grouped false (worklife records others)) = inr r1 /\
    snd (data_grouped false (worklife records' others)) = inr r2 /\
    source r = source r1 /\ source r = source r2 /\
    target r = target r1 /\ target r = target r2 /\
    value r = zip_with Z.add (value r1) (value r2).
Proof.
  destruct (data_grouped_arrays false (records ++ records') others)
    as (r & Hr & Hs & Ht & Hv & _).
  destruct (data_grouped_arrays false records others)
    as (r1 & Hr1 & Hs1 & Ht1 & Hv1 & _).
  destruct (data_grouped_arrays false records' others)
    as (r2 & Hr2 & Hs2 & Ht2 & Hv2 & _).
  exists r, r1, r2. repeat split; try assumption.
  - rewrite Hs, Hs1. unfold kept_groups, groups_of. rewrite !map_map. reflexivity.
  - rewrite Hs, Hs2. unfold kept_groups, groups_of. rewrite !map_map. reflexivity.
  - rewrite Ht, Ht1. unfold kept_groups, groups_of. rewrite !map_map. reflexivity.
  - rewrite Ht, Ht2. unfold kept_groups, groups_of. rewrite !map_map. reflexivity.
  - rewrite Hv, Hv1, Hv2. unfold kept_groups, groups_of. rewrite !map_map.
    cbn [snd]. rewrite zip_with_map_same. apply List.map_ext. intros key.
    rewrite map_app. apply group_size_app.
Qed.

(** ** The sample of a frame of exactly 3500 rows *)

Lemma map_nth_seq {A} (l : list A) (d : A) :
  map (fun i => nth i l d) (seq 0 (length l)) = l.
Proof.
  apply list_eq. intros i. rewrite list_lookup_fmap.
  destruct (decide (i < length l)%nat) as [Hlt|Hge].
  - rewrite lookup_seq_lt by exact Hlt. cbn.
    destruct (lookup_lt_is_Some_2 l i Hlt) as [x Hx].
    rewrite Hx. f_equal. apply nth_lookup_Some, Hx.
  - rewrite lookup_seq_ge by lia. cbn. symmetry. apply lookup_ge_None. lia.
Qed.

Lemma Forall2_lookup_nth {A} (l : list A) (d : A) (indices : list nat)
    (rows : list A) :
  Forall2 (fun i row => l !! i = Some row) indices rows ->
  rows = map (fun i => nth i l d) indices.
Proof.
  induction 1 as [|i row indices rows Hi _ IH]; [reflexivity|].
  cbn [map]. rewrite <- IH. f_equal. symmetry. apply nth_lookup_Some, Hi.
Qed.

Section SampleWhole.

Context {Row : Type}.
Variable permutation : Z -> nat -> list nat.
Hypothesis permutation_spec : forall seed n, permutation seed n ≡ₚ seq 0 n.

(** X15.  On a frame of exactly 3500 rows the sample is the whole frame in
    another order: every row is drawn, as often as it occurs. *)
Theorem sample_of_3500_rows_is_a_shuffle (health_df : list Row) :
  length health_df = 3500%nat ->
  exists rows,
    sampled_health_df permutation health_df = inr rows /\
    rows ≡ₚ health_df.
Proof.
  intros Hlen. unfold sampled_health_df, sample.
  replace (length health_df <? 3500)%nat with false
    by (symmetry; apply Nat.ltb_ge; lia).
  rewrite Hlen.
  rewrite firstn_all2
    by (rewrite (Permutation_length (permutation_spec 42 3500)), length_seq; lia).
  assert (Hsome : is_Some (mapM (fun i => health_df !! i) (permutation 42 3500))).
  { apply mapM_is_Some, List.Forall_forall. intros i Hi.
    apply list_elem_of_In in Hi. rewrite (permutation_spec 42 3500) in Hi.
    apply elem_of_seq in Hi. apply lookup_lt_is_Some_2. lia. }
  destruct Hsome as [rows Hrows]. exists rows.
  unfold take_rows. rewrite Hrows. split; [reflexivity|].
  apply mapM_Some in Hrows.
  destruct (lookup_lt_is_Some_2 health_df 0) as [d _]; [lia|].
  rewrite (Forall2_lookup_nth health_df d _ _ Hrows).
  transitivity (map (fun i => nth i health_df d) (seq 0 3500)).
  - apply Permutation_map, permutation_spec.
  - rewrite <- Hlen, map_nth_seq. reflexivity.
Qed.

End SampleWhole.

Lemma sample_of_3500_rows_is_a_shuffle_witness :
  exists rows,
    sampled_health_df (fun _ n => rev (seq 0 n)) (seq 0 3500) = inr rows /\
    rows ≡ₚ seq 0 3500.
Proof.
  apply (sample_of_3500_rows_is_a_shuffle (fun _ n => rev (seq 0 n))).
  - intros seed n. symmetry. apply Permutation_rev.
  - apply length_seq.
Defined.

(** * The cleaned frame of the bubble chart *)

Lemma select_length {A} (mask : list bool) (l : list A) :
  length l = length mask -> length (select mask l) = count_true mask.
Proof.
  revert l. induction mask as [|keep mask IH]; intros [|x l] Hlen;
    try discriminate Hlen; [reflexivity|].
  injection Hlen as Hlen. unfold count_true in *. cbn [select List.filter].
  destruct keep; cbn [length]; rewrite IH by exact Hlen; reflexivity.
Qed.

Lemma select_map {A B} (f : A -> B) (mask : list bool) (l : list A) :
  select mask (map f l) = map f (select mask l).
Proof.
  revert l. induction mask as [|keep mask IH]; intros [|x l]; try reflexivity.
  cbn [map select]. destruct keep; cbn [map]; rewrite IH; reflexivity.
Qed.

Lemma select_own_mask {A} (p : A -> bool) (l : list A) :
  select (map p l) l = List.filter p l.
Proof.
  induction l as [|x l IH]; [reflexivity|].
  cbn [map select List.filter]. destruct (p x); rewrite IH; reflexivity.
Qed.

Lemma select_all {A} (mask : list bool) (l : list A) :
  Forall (fun keep => keep = true) mask -> length l = length mask ->
  select mask l = l.
Proof.
  intros Hall. revert l. induction Hall as [|keep mask Hk _ IH]; intros [|x l] Hlen;
    try discriminate Hlen; [reflexivity|].
  injection Hlen as Hlen. cbn [select]. rewrite Hk, IH by exact Hlen. reflexivity.
Qed.

Lemma length_notna (col : Series) : length (notna col) = rows_of col.
Proof. destruct col; cbn [notna rows_of]; apply length_map. Qed.

Lemma rows_of_select_rows (mask : list bool) (col : Series) :
  rows_of col = length mask -> rows_of (select_rows mask col) = count_true mask.
Proof. destruct col; cbn [rows_of select_rows codes]; apply select_length. Qed.

Lemma Forall_filter_true {A} (p : A -> bool) (l : list A) :
  Forall (fun keep => keep = true) (map p (List.filter p l)).
Proof.
  apply List.Forall_map, List.Forall_forall. intros x Hx.
  apply filter_In in Hx. tauto.
Qed.

(** No cell of a column is missing once its own missing rows are dropped. *)
Lemma notna_select_rows (col : Series) :
  Forall (fun keep => keep = true) (notna (select_rows (notna col) col)).
Proof.
  destruct col as [xs|xs|c]; cbn [notna select_rows codes];
    rewrite select_own_mask; apply Forall_filter_true.
Qed.

(** X16.  The frame of the bubble chart has the columns of the loaded frame,
    no missing cell in the column that sizes the bubbles, and as many rows
    in every column as that column had cells that were not missing. *)
Theorem cleaned_df_has_every_size (happiness_df : DataFrame) (size : Series) :
  happiness_df !! "Explained by: Social support" = Some size ->
  (forall name col, happiness_df !! name = Some col ->
                    rows_of col = rows_of size) ->
  exists cleaned size',
    cleaned_df happiness_df = inr cleaned /\
    dom cleaned = dom happiness_df /\
    cleaned !! "Explained by: Social support" = Some size' /\
    Forall (fun keep => keep = true) (notna size') /\
    forall name col', cleaned !! name = Some col' ->
                      rows_of col' = count_true (notna size).
Proof.
  intros Hsize Hrows. unfold cleaned_df, dropna. rewrite Hsize.
  eexists. eexists. split; [reflexivity|]. split; [apply dom_fmap_L|].
  split; [rewrite lookup_fmap, Hsize; reflexivity|].
  split; [apply notna_select_rows|].
  intros name col' Hcol'. rewrite lookup_fmap in Hcol'.
  destruct (happiness_df !! name) as [col|] eqn:Hcol; [|discriminate Hcol'].
  injection Hcol' as <-. apply rows_of_select_rows.
  rewrite length_notna. apply (Hrows name), Hcol.
Qed.

Lemma cleaned_df_has_every_size_witness :
  exists cleaned size',
    cleaned_df
      (<["Explained by: Social support" :=
           Float64 [Fin (3 # 2); NaN; Fin (inject_Z 1)]]>
         (<["Country name" :=
              Object [Some "Finland"; Some "Oman"; Some "Chile"]]> ∅))
    = inr cleaned /\
    dom cleaned
    = dom (<["Explained by: Social support" :=
               Float64 [Fin (3 # 2); NaN; Fin (inject_Z 1)]]>
             (<["Country name" :=
                  Object [Some "Finland"; Some "Oman"; Some "Chile"]]>
                (∅ : DataFrame))) /\
    cleaned !! "Explained by: Social support" = Some size' /\
    Forall (fun keep => keep = true) (notna size') /\
    forall name col', cleaned !! name = Some col' ->
                      rows_of col'
                      = count_true
                          (notna (Float64 [Fin (3 # 2); NaN; Fin (inject_Z 1)])).
Proof.
  apply (cleaned_df_has_every_size _
           (Float64 [Fin (3 # 2); NaN; Fin (inject_Z 1)])).
  - reflexivity.
  - intros name col Hcol.
    destruct (decide (name = "Explained by: Social support")) as [->|Hne].
    + rewrite lookup_insert_eq in Hcol. injection Hcol as <-. reflexivity.
    + rewrite lookup_insert_ne in Hcol by congruence.
      destruct (decide (name = "Country name")) as [->|Hne'].
      * rewrite lookup_insert_eq in Hcol. injection Hcol as <-. reflexivity.
      * rewrite lookup_insert_ne in Hcol by congruence.
        rewrite lookup_empty in Hcol. discriminate Hcol.
Defined.

Lemma cells_select_rows (mask : list bool) (col : Series) :
  cells (select_rows mask col) = select mask (cells col).
Proof.
  destruct col as [xs|xs|c]; cbn [cells select_rows categories codes];
    rewrite select_map; reflexivity.
Qed.

Lemma combine_select {A B} (mask : list bool) (l : list A) (k : list B) :
  combine (select mask l) (select mask k) = select mask (combine l k).
Proof.
  revert l k. induction mask as [|keep mask IH]; intros [|x l] [|y k];
    try reflexivity; cbn [select combine].
  - destruct (if keep then x :: select mask l else select mask l); reflexivity.
  - destruct keep; cbn [combine]; rewrite IH; reflexivity.
Qed.

Lemma select_combine_mask {A B} (p : A -> bool) (l : list A) (k : list B) :
  select (map p l) (combine l k)
  = List.filter (fun row => p (fst row)) (combine l k).
Proof.
  revert k. induction l as [|x l IH]; intros [|y k]; try reflexivity.
  cbn [map select combine List.filter fst].
  destruct (p x); rewrite IH; reflexivity.
Qed.

(** X17.  Dropping rows keeps the remaining rows whole and in order: next
    to any other column, the sizes of the cleaned frame are the (size, cell)
    rows of the loaded frame whose size is not NaN. *)
Theorem cleaned_df_keeps_rows_whole (happiness_df : DataFrame)
    (sizes : list float64) (name : string) (col : Series) :
  happiness_df !! "Explained by: Social support" = Some (Float64 sizes) ->
  happiness_df !! name = Some col ->
  exists cleaned sizes' col',
    cleaned_df happiness_df = inr cleaned /\
    cleaned !! "Explained by: Social support" = Some (Float64 sizes') /\
    cleaned !! name = Some col' /\
    combine sizes' (cells col')
    = List.filter (fun row => negb (pd.isna (fst row)))
                  (combine sizes (cells col)).
Proof.
  intros Hsize Hcol. unfold cleaned_df, dropna. rewrite Hsize.
  eexists. eexists. eexists. split; [reflexivity|].
  split; [rewrite lookup_fmap, Hsize; reflexivity|].
  split; [rewrite lookup_fmap, Hcol; reflexivity|].
  rewrite cells_select_rows, combine_select. cbn [notna].
  apply (select_combine_mask (fun x => negb (pd.isna x))).
Qed.

Lemma cleaned_df_keeps_rows_whole_witness :
  exists cleaned sizes' col',
    cleaned_df
      (<["Explained by: Social support" :=
           Float64 [Fin (3 # 2); NaN; Fin (inject_Z 1)]]>
         (<["Country name" :=
              Object [Some "Finland"; Some "Oman"; Some "Chile"]]> ∅))
    = inr cleaned /\
    cleaned !! "Explained by: Social support" = Some (Float64 sizes') /\
    cleaned !! "Country name" = Some col' /\
    combine sizes' (cells col')
    = List.filter (fun row => negb (pd.isna (fst row)))
        (combine [Fin (3 # 2); NaN; Fin (inject_Z 1)]
           (cells (Object [Some "Finland"; Some "Oman"; Some "Chile"]))).
Proof.
  apply (cleaned_df_keeps_rows_whole _ [Fin (3 # 2); NaN; Fin (inject_Z 1)]
           "Country name" (Object [Some "Finland"; Some "Oman"; Some "Chile"]));
    reflexivity.
Defined.

Lemma select_rows_all (mask : list bool) (col : Series) :
  Forall (fun keep => keep = true) mask -> rows_of col = length mask ->
  select_rows mask col = col.
Proof.
  intros Hall Hlen. destruct col as [xs|xs|[cats cs ord]];
    cbn [select_rows rows_of categories codes ordered] in *;
    rewrite select_all by assumption; reflexivity.
Qed.

(** X18.  Cleaning is idempotent: dropping the rows with a missing size from
    the cleaned frame gives the cleaned frame again. *)
Theorem cleaned_df_twice (happiness_df : DataFrame) (size : Series) :
  happiness_df !! "Explained by: Social support" = Some size ->
  (forall name col, happiness_df !! name = Some col ->
                    rows_of col = rows_of size) ->
  exists cleaned,
    cleaned_df happiness_df = inr cleaned /\
    cleaned_df cleaned = inr cleaned.
Proof.
  intros Hsize Hrows. unfold cleaned_df, dropna. rewrite Hsize.
  eexists. split; [reflexivity|].
  rewrite lookup_fmap, Hsize. cbn [fmap option_fmap option_map]. f_equal.
  apply map_eq. intros name. rewrite !lookup_fmap.
  destruct (happiness_df !! name) as [col|] eqn:Hcol; [|reflexivity].
  cbn [fmap option_fmap option_map]. f_equal.
  apply select_rows_all; [apply notna_select_rows|].
  rewrite length_notna, !rows_of_select_rows;
    rewrite ?length_notna; [reflexivity|reflexivity|].
  apply (Hrows name), Hcol.
Qed.

Lemma cleaned_df_twice_witness :
  exists cleaned,
    cleaned_df
      (<["Explained by: Social support" :=
           Float64 [Fin (3 # 2); NaN; Fin (inject_Z 1)]]> ∅)
    = inr cleaned /\
    cleaned_df cleaned = inr cleaned.
Proof.
  apply (cleaned_df_twice _ (Float64 [Fin (3 # 2); NaN; Fin (inject_Z 1)])).
  - reflexivity.
  - intros name col Hcol.
    destruct (decide (name = "Explained by: Social support")) as [->|Hne].
    + rewrite lookup_insert_eq in Hcol. injection Hcol as <-. reflexivity.
    + rewrite lookup_insert_ne in Hcol by congruence.
      rewrite lookup_empty in Hcol. discriminate Hcol.
Defined.

(** * The long table of the treemap *)

Lemma length_cells (col : Series) : length (cells col) = rows_of col.
Proof. destruct col; cbn [cells rows_of]; apply length_map. Qed.

Lemma length_block (id_col : Series) (named : string * Series) (n : nat) :
  rows_of id_col = n -> rows_of (snd named) = n ->
  length (block id_col named) = n.
Proof.
  intros Hid Hcol. unfold block.
  rewrite length_map, length_combine, !length_cells, Hid, Hcol. lia.
Qed.

Lemma lookup_block (id_col : Series) (named : string * Series) (k : nat)
    (c v : cell) :
  cells id_col !! k = Some c -> cells (snd named) !! k = Some v ->
  block id_col named !! k
  = Some (mkLongRow c (fst named) (pd.get_indexer factors (fst named)) v).
Proof.
  intros Hc Hv. unfold block. rewrite list_lookup_fmap.
  assert (H : combine (cells id_col) (cells (snd named)) !! k = Some (c, v)).
  { revert k Hc Hv. generalize (cells id_col) (cells (snd named)).
    induction l as [|a l IH]; intros [|b l0] [|k] Hc Hv;
      try discriminate; cbn in *.
    - congruence.
    - apply IH; assumption. }
  rewrite H. reflexivity.
Qed.

Lemma tree_long_blocks (top20 : DataFrame) (id_col gdp support health : Series) :
  top20 !! "Country name" = Some id_col ->
  top20 !! "Explained by: Log GDP per capita" = Some gdp ->
  top20 !! "Explained by: Social support" = Some support ->
  top20 !! "Explained by: Healthy life expectancy" = Some health ->
  tree_long top20
  = inr (block id_col ("Explained by: Log GDP per capita", gdp)
         ++ block id_col ("Explained by: Social support", support)
         ++ block id_col ("Explained by: Healthy life expectancy", health)).
Proof.
  intros Hid Hgdp Hsup Hhea. unfold tree_long, factors.
  cbn [getitems]. rewrite Hid, Hgdp, Hsup, Hhea.
  unfold melt. cbn [flat_map]. rewrite app_nil_r. reflexivity.
Qed.

(** X19.  The long table has three rows for every row of the top-20 frame,
    and the factor of every row is one of the three categories of line 69,
    so that no factor is missing once line 68 made the column categorical. *)
Theorem tree_long_has_three_rows_per_country (top20 : DataFrame)
    (id_col gdp support health : Series) (n : nat) :
  top20 !! "Country name" = Some id_col ->
  top20 !! "Explained by: Log GDP per capita" = Some gdp ->
  top20 !! "Explained by: Social support" = Some support ->
  top20 !! "Explained by: Healthy life expectancy" = Some health ->
  rows_of id_col = n -> rows_of gdp = n -> rows_of support = n ->
  rows_of health = n ->
  exists rows,
    tree_long top20 = inr rows /\
    length rows = (3 * n)%nat /\
    Forall (fun row => 0 <= Factor_code row < 3 /\
                       factors !! Z.to_nat (Factor_code row) = Some (Factor row))
           rows.
Proof.
  intros Hid Hgdp Hsup Hhea Rid Rgdp Rsup Rhea.
  rewrite (tree_long_blocks top20 id_col gdp support health) by assumption.
  eexists. split; [reflexivity|]. split.
  - rewrite !length_app, !(length_block _ _ n) by assumption. lia.
  - rewrite !Forall_app. repeat split;
      apply List.Forall_map, List.Forall_forall; intros row _;
      cbn [Factor_code Factor fst]; vm_compute; repeat split; congruence.
Qed.

Lemma tree_long_has_three_rows_per_country_witness :
  exists rows,
    tree_long
      (<["Country name" := Object [Some "Finland"; Some "Denmark"]]>
         (<["Explained by: Log GDP per capita" :=
              Float64 [Fin (18 # 10); Fin (19 # 10)]]>
            (<["Explained by: Social support" :=
                 Float64 [Fin (15 # 10); Fin (15 # 10)]]>
               (<["Explained by: Healthy life expectancy" :=
                    Float64 [Fin (7 # 10); NaN]]> ∅))))
    = inr rows /\
    length rows = (3 * 2)%nat /\
    Forall (fun row => 0 <= Factor_code row < 3 /\
                       factors !! Z.to_nat (Factor_code row) = Some (Factor row))
           rows.
Proof.
  apply (tree_long_has_three_rows_per_country _
           (Object [Some "Finland"; Some "Denmark"])
           (Float64 [Fin (18 # 10); Fin (19 # 10)])
           (Float64 [Fin (15 # 10); Fin (15 # 10)])
           (Float64 [Fin (7 # 10); NaN]) 2); reflexivity.
Defined.

(** X20.  The long table holds the wide one: the value of country [k] for
    the [f]-th factor is in row [f * n + k], next to the country and the
    factor. *)
Theorem tree_long_holds_the_wide_table (top20 : DataFrame)
    (id_col gdp support health : Series) (n f k : nat)
    (name : string) (col : Series) (c v : cell) :
  top20 !! "Country name" = Some id_col ->
  top20 !! "Explained by: Log GDP per capita" = Some gdp ->
  top20 !! "Explained by: Social support" = Some support ->
  top20 !! "Explained by: Healthy life expectancy" = Some health ->
  rows_of id_col = n -> rows_of gdp = n -> rows_of support = n ->
  rows_of health = n ->
  [("Explained by: Log GDP per capita", gdp);
   ("Explained by: Social support", support);
   ("Explained by: Healthy life expectancy", health)] !! f = Some (name, col) ->
  cells id_col !! k = Some c ->
  cells col !! k = Some v ->
  exists rows,
    tree_long top20 = inr rows /\
    rows !! (f * n + k)%nat = Some (mkLongRow c name (Z.of_nat f) v).
Proof.
  intros Hid Hgdp Hsup Hhea Rid Rgdp Rsup Rhea Hf Hc Hv.
  rewrite (tree_long_blocks top20 id_col gdp support health) by assumption.
  eexists. split; [reflexivity|].
  assert (Hk : (k < n)%nat).
  { apply lookup_lt_Some in Hc. rewrite length_cells in Hc. lia. }
  destruct f as [|[|[|f]]]; cbn in Hf; try discriminate Hf;
    injection Hf as <- <-.
  - rewrite lookup_app_l by (rewrite (length_block _ _ n) by assumption; lia).
    replace (0 * n + k)%nat with k by lia.
    rewrite (lookup_block id_col (_, gdp) k c v) by assumption. reflexivity.
  - rewrite lookup_app_r by (rewrite (length_block _ _ n) by assumption; lia).
    rewrite (length_block _ _ n) by assumption.
    rewrite lookup_app_l by (rewrite (length_block _ _ n) by assumption; lia).
    replace (1 * n + k - n)%nat with k by lia.
    rewrite (lookup_block id_col (_, support) k c v) by assumption. reflexivity.
  - rewrite lookup_app_r by (rewrite (length_block _ _ n) by assumption; lia).
    rewrite (length_block _ _ n) by assumption.
    rewrite lookup_app_r by (rewrite (length_block _ _ n) by assumption; lia).
    rewrite (length_block _ _ n) by assumption.
    replace (2 * n + k - n - n)%nat with k by lia.
    rewrite (lookup_block id_col (_, health) k c v) by assumption. reflexivity.
Qed.

Lemma tree_long_holds_the_wide_table_witness :
  exists rows,
    tree_long
      (<["Country name" := Object [Some "Finland"; Some "Denmark"]]>
         (<["Explained by: Log GDP per capita" :=
              Float64 [Fin (18 # 10); Fin (19 # 10)]]>
            (<["Explained by: Social support" :=
                 Float64 [Fin (15 # 10); Fin (15 # 10)]]>
               (<["Explained by: Healthy life expectancy" :=
                    Float64 [Fin (7 # 10); NaN]]> ∅))))
    = inr rows /\
    rows !! (2 * 2 + 1)%nat
    = Some (mkLongRow (Text "Denmark") "Explained by: Healthy life expectancy"
              (Z.of_nat 2) (Number NaN)).
Proof.
  apply (tree_long_holds_the_wide_table _
           (Object [Some "Finland"; Some "Denmark"])
           (Float64 [Fin (18 # 10); Fin (19 # 10)])
           (Float64 [Fin (15 # 10); Fin (15 # 10)])
           (Float64 [Fin (7 # 10); NaN]) 2 2 1
           "Explained by: Healthy life expectancy"
           (Float64 [Fin (7 # 10); NaN])); reflexivity.
Defined.

(** * Labels and colors of the nodes *)

Lemma lookup_all_lookup (mapping : gmap string string) (keys colors : list string)
    (j : nat) (key : string) :
  lookup_all mapping keys = inr colors ->
  keys !! j = Some key ->
  colors !! j = mapping !! key /\ is_Some (mapping !! key).
Proof.
  revert colors j. induction keys as [|k keys IH]; intros colors j Hall Hj;
    [discriminate Hj|].
  cbn [lookup_all] in Hall. destruct (mapping !! k) as [v|] eqn:Hk;
    [|discriminate Hall].
  destruct (lookup_all mapping keys) as [e|vs]; [discriminate Hall|].
  injection Hall as <-. destruct j as [|j]; cbn in Hj |- *.
  - injection Hj as <-. rewrite Hk. split; [reflexivity | eexists; reflexivity].
  - apply (IH vs j); [reflexivity | exact Hj].
Qed.

Lemma lookup_repeat {A} (x : A) (n k : nat) :
  (k < n)%nat -> repeat x n !! k = Some x.
Proof.
  revert k. induction n as [|n IH]; intros k Hk; [lia|].
  destruct k as [|k]; [reflexivity|]. cbn. apply IH. lia.
Qed.

(** X21.  Whenever a call returns, labels and colors are aligned node by
    node: node [k] below 10 is the bucket "<label> Hours" in blue, and node
    [10 + j] is the [j]-th stress level "<level> Stress" in the color
    [stress_color_mapping] gives that label. *)
Theorem node_labels_and_colors_aligned (observed : bool) (order : list string)
    (mapping : gmap string string) (df : DataFrame) (r : SankeyData) :
  snd (prepare_sankey_data observed order mapping df) = inr r ->
  (forall (k : nat) (label : string),
     bin_labels !! k = Some label ->
     labels r !! k = Some (label +:+ " Hours") /\
     node_colors r !! k = Some "#4A90E2") /\
  (forall (j : nat) (level : string),
     order !! j = Some level ->
     labels r !! (10 + j)%nat = Some (level +:+ " Stress") /\
     node_colors r !! (10 + j)%nat = mapping !! (level +:+ " Stress") /\
     is_Some (mapping !! (level +:+ " Stress"))).
Proof.
  rewrite prepare_sankey_data_outcome. unfold outcome.
  destruct (df !! "Work_Hours") as [hours|]; [|discriminate].
  destruct (pd.numeric hours) as [xs|]; [|discriminate].
  destruct (df !! "Stress_Level") as [col|]; [|discriminate].
  destruct (pd.Categorical col order) as [e|stress]; [discriminate|].
  destruct (lookup_all mapping (stress_level_labels order)) as [e|colors] eqn:Hall;
    [discriminate|].
  cbn [snd]. intros [= <-]. cbn [sankey labels node_colors]. split.
  - intros k label Hk.
    assert (Hlt : (k < 10)%nat) by (apply lookup_lt_Some in Hk; exact Hk).
    split.
    + rewrite lookup_app_l by (rewrite length_map; exact Hlt).
      rewrite list_lookup_fmap, Hk. reflexivity.
    + rewrite lookup_app_l by (rewrite repeat_length, length_map; exact Hlt).
      apply lookup_repeat. rewrite length_map. exact Hlt.
  - intros j level Hj.
    assert (Hlabel : stress_level_labels order !! j = Some (level +:+ " Stress")).
    { unfold stress_level_labels. rewrite list_lookup_fmap, Hj. reflexivity. }
    destruct (lookup_all_lookup mapping _ colors j _ Hall Hlabel) as [Hc Hs].
    repeat split; [| |exact Hs].
    + rewrite lookup_app_r by (rewrite length_map; cbn; lia).
      rewrite length_map. replace (10 + j - length bin_labels)%nat with j
        by (cbn; lia).
      exact Hlabel.
    + rewrite lookup_app_r by (rewrite repeat_length, length_map; cbn; lia).
      rewrite repeat_length, length_map.
      replace (10 + j - length bin_labels)%nat with j by (cbn; lia).
      exact Hc.
Qed.

Lemma node_labels_and_colors_aligned_witness :
  (forall (k : nat) (label : string),
     bin_labels !! k = Some label ->
     labels (sankey true app_stress_level_order app_stress_colors
               (grouped_hours [Fin (inject_Z 5)])
               (sorted_stress app_stress_level_order (Object [Some "Low"])))
       !! k = Some (label +:+ " Hours") /\
     node_colors (sankey true app_stress_level_order app_stress_colors
               (grouped_hours [Fin (inject_Z 5)])
               (sorted_stress app_stress_level_order (Object [Some "Low"])))
       !! k = Some "#4A90E2") /\
  (forall (j : nat) (level : string),
     app_stress_level_order !! j = Some level ->
     labels (sankey true app_stress_level_order app_stress_colors
               (grouped_hours [Fin (inject_Z 5)])
               (sorted_stress app_stress_level_order (Object [Some "Low"])))
       !! (10 + j)%nat = Some (level +:+ " Stress") /\
     node_colors (sankey true app_stress_level_order app_stress_colors
               (grouped_hours [Fin (inject_Z 5)])
               (sorted_stress app_stress_level_order (Object [Some "Low"])))
       !! (10 + j)%nat = app_stress_color_mapping !! (level +:+ " Stress") /\
     is_Some (app_stress_color_mapping !! (level +:+ " Stress"))).
Proof.
  apply (node_labels_and_colors_aligned true app_stress_level_order
           app_stress_color_mapping (worklife [record_of 5 "Low"] ∅)).
  vm_compute. reflexivity.
Defined.

(** * The sum of the weights *)

Lemma weights_sum_usable (observed : bool)
    (records : list (float64 * option string)) (others : DataFrame) :
  exists r,
    snd (data_grouped observed (worklife records others)) = inr r /\
    sum (value r)
    = Z.of_nat (length (List.filter
        (fun record => bucketed (fst record)
                       && listed app_stress_level_order (snd record))
        records)).
Proof.
  rewrite data_grouped_worklife. eexists. split; [reflexivity|].
  unfold sankey. cbn [value]. rewrite size_count_sum.
  cbn [grouped_hours sorted_stress codes categories pd.values].
  rewrite combine_record_codes, filter_map_length. do 2 f_equal.
  apply List.filter_ext. intros record.
  unfold grouped_row, record_codes. cbn [fst snd].
  rewrite is_code_cut_code, is_code_code_of. reflexivity.
Qed.

(** X22.  The weights add up to the number of records whose Work_Hours lies
    in one of the intervals (0, 10], ..., (90, 100] and whose Stress_Level
    is one of the listed levels; every other record (hours that are NaN, at
    most 0 or above 100, a stress label that is missing or not listed) is
    left out without an error. *)
Theorem weights_add_up_to_usable_records (observed : bool)
    (records : list (float64 * option string)) (others : DataFrame) :
  exists r,
    snd (data_grouped observed (worklife records others)) = inr r /\
    sum (value r)
    = Z.of_nat (length (List.filter
        (fun record => bucketed (fst record)
                       && listed app_stress_level_order (snd record))
        records)).
Proof. apply weights_sum_usable. Qed.

Example unlisted_stress_is_left_out :
  exists r,
    snd (data_grouped false
           (worklife [record_of 5 "Low"; (Fin (inject_Z 45), Some "Extreme");
                      (Fin (inject_Z 45), None)] ∅)) = inr r /\
    sum (value r) = 1.
Proof. eexists. split; vm_compute; reflexivity. Qed.

Lemma bucketed_labelled (x : float64) :
  bucketed x = in_labelled_range x && negb (zero_hours x).
Proof.
  destruct x as [| |q|]; try reflexivity.
  apply Bool.eq_true_iff_eq. rewrite bucketed_Fin. cbn [in_labelled_range zero_hours].
  rewrite andb_true_iff, andb_true_iff, negb_true_iff, !Qle_bool_iff.
  rewrite <- not_true_iff_false, Qeq_bool_iff.
  split.
  - intros [Hpos Hle]. repeat split.
    + apply Qlt_le_weak, Hpos.
    + exact Hle.
    + intros Hz. rewrite Hz in Hpos. apply (Qlt_irrefl 0), Hpos.
  - intros [[Hnn Hle] Hnz]. split; [|exact Hle].
    apply Qle_lteq in Hnn as [Hlt|Heq]; [exact Hlt|].
    exfalso. apply Hnz. symmetry. exact Heq.
Qed.

(** X23.  On a record set whose stress levels are all listed and in which
    no record has exactly 0 hours, the weights add up to the number of
    records with hours from 0 to 100. *)
Theorem weights_sum_without_zero_hours (observed : bool)
    (records : list (float64 * option string)) (others : DataFrame) :
  Forall (fun record => listed app_stress_level_order (snd record) = true)
         records ->
  Forall (fun record => zero_hours (fst record) = false) records ->
  exists r,
    snd (data_grouped observed (worklife records others)) = inr r /\
    sum (value r)
    = Z.of_nat (length (List.filter
        (fun record => in_labelled_range (fst record)) records)).
Proof.
  intros Hlisted Hzero.
  destruct (weights_sum_usable observed records others)
    as (r & Hr & Hsum).
  exists r. split; [exact Hr|]. rewrite Hsum. do 2 f_equal.
  clear Hr Hsum. induction records as [|record records IH]; [reflexivity|].
  inversion Hlisted as [|? ? Hl Hls]. inversion Hzero as [|? ? Hz Hzs]. subst.
  cbn [List.filter]. rewrite bucketed_labelled, Hl, Hz, (IH Hls Hzs).
  cbn [negb]. rewrite !andb_true_r. reflexivity.
Qed.

Lemma weights_sum_without_zero_hours_witness :
  exists r,
    snd (data_grouped false
           (worklife [record_of 5 "Low"; record_of 100 "High";
                      record_of 120 "Low"] ∅)) = inr r /\
    sum (value r)
    = Z.of_nat (length (List.filter
        (fun record => in_labelled_range (fst record))
        [record_of 5 "Low"; record_of 100 "High"; record_of 120 "Low"])).
Proof.
  apply (weights_sum_without_zero_hours false
           [record_of 5 "Low"; record_of 100 "High"; record_of 120 "Low"] ∅).
  - repeat constructor; vm_compute; reflexivity.
  - repeat constructor.
Defined.

Example header_only_file :
  exists r,
    snd (data_grouped true
           (<["Work_Hours" := Object []]> (<["Stress_Level" := Object []]> ∅)))
    = inr r /\
    length (labels r) = 13%nat /\ edge_list r = [].
Proof. eexists. split; [vm_compute; reflexivity|]. split; reflexivity. Qed.
